(** * Backtesting engine of [str.py]: a shallow embedding and its properties

    The development follows the layout of the Python module:
    - numbers ([num]): IEEE binary64 values, tagged by the Python type that
      carries them, because only a division of two built-in floats raises;
    - the data frame, [Trade], the position dictionary, the object state;
    - a small state-and-exception monad in which the methods are written;
    - the methods of [TechnicalAnalysis], in source order;
    - the properties. *)

From Stdlib Require Import Floats ZArith List String Bool Lia.
From Stdlib Require Lists.Finite.
Import ListNotations.
Open Scope string_scope.
Open Scope list_scope.
Open Scope Z_scope.

(** ** Exceptions *)

Inductive exn : Type :=
| IndexError
| KeyError
| TypeError
| ValueError
| ZeroDivisionError
| NotImplementedError.

Inductive result (A : Type) : Type :=
| Ok (a : A)
| Raise (e : exn).

Arguments Ok {A} a.
Arguments Raise {A} e.

(** ** Numbers

    Every number of the program is a binary64 value.  [Py f] is a built-in
    Python [float]; [Np f] is a [numpy.float64], which is what indexing a
    row of the data frame returns.  Arithmetic on the two agrees except for
    true division: [Py a / Py 0] raises [ZeroDivisionError], while a division
    with a [numpy.float64] operand follows IEEE 754 (infinity or NaN).
    An operation with a [numpy.float64] operand returns a [numpy.float64]. *)

Inductive num : Type :=
| Py (f : float)
| Np (f : float).

Definition val (x : num) : float :=
  match x with Py f => f | Np f => f end.

Definition lift1 (op : float -> float) (x : num) : num :=
  match x with Py a => Py (op a) | Np a => Np (op a) end.

Definition lift2 (op : float -> float -> float) (x y : num) : num :=
  match x, y with
  | Py a, Py b => Py (op a b)
  | _, _ => Np (op (val x) (val y))
  end.

Definition num_add : num -> num -> num := lift2 PrimFloat.add.
Definition num_sub : num -> num -> num := lift2 PrimFloat.sub.
Definition num_mul : num -> num -> num := lift2 PrimFloat.mul.
Definition num_neg : num -> num := lift1 PrimFloat.opp.
Definition num_abs : num -> num := lift1 PrimFloat.abs.

(** The IEEE quotient, and [/] as Python evaluates it. *)
Definition num_quot : num -> num -> num := lift2 PrimFloat.div.

Definition div_raises (x y : num) : bool :=
  match x, y with
  | Py _, Py b => PrimFloat.eqb b 0
  | _, _ => false
  end.

Definition num_div (x y : num) : result num :=
  if div_raises x y then Raise ZeroDivisionError else Ok (num_quot x y).

Definition num_ltb (x y : num) : bool := PrimFloat.ltb (val x) (val y).
Definition num_leb (x y : num) : bool := PrimFloat.leb (val x) (val y).
Definition num_gtb (x y : num) : bool := PrimFloat.ltb (val y) (val x).
Definition num_geb (x y : num) : bool := PrimFloat.leb (val y) (val x).

(** The integer literals of the source ([0], [1], [2], [100]) are written
    [Py 0], [Py 1], [Py 2], [Py 100]: an integer operand converts to the
    float of the same value. *)
Arguments Py f%_float.
Arguments Np f%_float.

Declare Scope num_scope.
Delimit Scope num_scope with num.
Bind Scope num_scope with num.
Infix "+" := num_add : num_scope.
Infix "-" := num_sub : num_scope.
Infix "*" := num_mul : num_scope.
Infix "<?" := num_ltb : num_scope.
Infix "<=?" := num_leb : num_scope.
Infix ">?" := num_gtb : num_scope.
Infix ">=?" := num_geb : num_scope.

(** ** Data model *)

(** A time stamp of the [datetime] column. *)
Definition datetime : Type := Z.

(** One row of the data frame; the price columns have dtype float64. *)
Record Bar : Type := mkBar {
  bar_datetime : datetime;
  bar_open : float;
  bar_high : float;
  bar_low : float;
  bar_close : float;
  bar_volume : float
}.

Arguments mkBar bar_datetime%_Z
  (bar_open bar_high bar_low bar_close bar_volume)%_float.

Definition DataFrame : Type := list Bar.

Record Trade : Type := mkTrade {
  entry_time : datetime;
  exit_time : datetime;
  direction : string;
  entry_price : num;
  exit_price : num;
  stop_loss : num;
  take_profit : num;
  profit_loss : num;
  profit_loss_pct : num;
  exit_reason : string;
  commission_paid : num
}.

(** The dictionary stored in [current_position]. *)
Record Position : Type := mkPosition {
  pos_index : Z;
  pos_direction : string;
  pos_entry_price : num;
  pos_stop_loss : num;
  pos_take_profit : num;
  pos_entry_time : datetime
}.

(** The attributes of a [TechnicalAnalysis] object. *)
Record TechnicalAnalysis : Type := mkTA {
  data : DataFrame;
  initial_capital : num;
  current_capital : num;
  commission_rate : num;
  trades : list Trade;
  current_position : option Position
}.

Definition set_current_position (p : option Position) (s : TechnicalAnalysis)
  : TechnicalAnalysis :=
  mkTA (data s) (initial_capital s) (current_capital s) (commission_rate s)
       (trades s) p.

Definition set_current_capital (c : num) (s : TechnicalAnalysis)
  : TechnicalAnalysis :=
  mkTA (data s) (initial_capital s) c (commission_rate s)
       (trades s) (current_position s).

Definition append_trade (t : Trade) (s : TechnicalAnalysis) : TechnicalAnalysis :=
  mkTA (data s) (initial_capital s) (current_capital s) (commission_rate s)
       (trades s ++ [t]) (current_position s).

(** ** Method calls, recorded

    The engine's claims speak about which method is called when.  Every
    method below records its call, with the position held at that moment,
    in a ghost list next to the object. *)

Inductive Call : Type :=
| call_open_position (index : Z) (dir : string) (entry sl tp : num)
| call_close_position (index : Z) (price : num) (reason : string)
| call_check_exit_conditions (index : Z)
| call_generate_signal (index : Z).

Record Event : Type := mkEvent {
  ev_call : Call;
  ev_held : option Position
}.

Record World : Type := mkWorld {
  self : TechnicalAnalysis;
  calls : list Event
}.

(** ** The monad of methods: object state, recorded calls, exceptions.
    An exception keeps the state reached when it was raised. *)

Definition M (A : Type) : Type := World -> result A * World.

Definition ret {A} (a : A) : M A := fun w => (Ok a, w).

Definition bind {A B} (m : M A) (k : A -> M B) : M B :=
  fun w =>
    match m w with
    | (Ok a, w') => k a w'
    | (Raise e, w') => (Raise e, w')
    end.

Definition lift {A} (r : result A) : M A := fun w => (r, w).

Definition get_self : M TechnicalAnalysis := fun w => (Ok (self w), w).

Definition modify_self (f : TechnicalAnalysis -> TechnicalAnalysis) : M unit :=
  fun w => (Ok tt, mkWorld (f (self w)) (calls w)).

Definition record_call (c : Call) : M unit :=
  fun w => (Ok tt, mkWorld (self w)
                           (calls w ++ [mkEvent c (current_position (self w))])).

Declare Scope monad_scope.
Delimit Scope monad_scope with monad.
Notation "x <- c ;; k" := (bind c (fun x => k))
  (at level 61, c at next level, right associativity) : monad_scope.
Notation "c ;; k" := (bind c (fun _ => k))
  (at level 61, right associativity) : monad_scope.
Open Scope monad_scope.

(** [df.iloc[index]]: negative positions count from the end. *)
Definition iloc (df : DataFrame) (index : Z) : result Bar :=
  let n := Z.of_nat (List.length df) in
  if (0 <=? index) && (index <? n) then
    match nth_error df (Z.to_nat index) with
    | Some row => Ok row
    | None => Raise IndexError
    end
  else if (- n <=? index) && (index <? 0) then
    match nth_error df (Z.to_nat (n + index)) with
    | Some row => Ok row
    | None => Raise IndexError
    end
  else Raise IndexError.

Definition self_iloc (index : Z) : M Bar :=
  fun w => (iloc (data (self w)) index, w).

(** Exceptions in a method that only reads the object. *)
Definition rbind {A B} (r : result A) (k : A -> result B) : result B :=
  match r with
  | Ok a => k a
  | Raise e => Raise e
  end.

Notation "'try' x := c 'in' k" := (rbind c (fun x => k))
  (at level 61, x pattern, c at next level, right associativity,
   format "'[v' 'try'  x  :=  c  'in' '/' k ']'").

(** ** Class [TechnicalAnalysis] *)

(** [__init__]: stores its arguments as they come; the capital starts at
    [initial_capital], there is no trade and no position. *)
Definition __init__ (df : DataFrame) (initial_capital commission_rate : num)
  : result TechnicalAnalysis :=
  Ok (mkTA df initial_capital initial_capital commission_rate [] None).

(** *** Section 1 of the source: indicators

    A column of the data frame is a series of binary64 values; the
    operations of a series are element-wise, follow IEEE 754 and raise
    nothing. *)

Open Scope float_scope.

(** [self.data[price_column]].  The time stamps are no price series: the
    arithmetic of the indicators rejects that column. *)
Definition column (df : DataFrame) (price_column : string)
  : result (list float) :=
  if String.eqb price_column "open" then Ok (map bar_open df)
  else if String.eqb price_column "high" then Ok (map bar_high df)
  else if String.eqb price_column "low" then Ok (map bar_low df)
  else if String.eqb price_column "close" then Ok (map bar_close df)
  else if String.eqb price_column "volume" then Ok (map bar_volume df)
  else if String.eqb price_column "datetime" then Raise TypeError
  else Raise KeyError.

(** The float of a non-negative integer below [2^63]. *)
Definition float_of_Z (z : Z) : float := PrimFloat.of_uint63 (Uint63.of_Z z).

(** [ewm(span=period, adjust=False)]: the smoothing factor
    [alpha = 2 / (period + 1)]; a span below one is refused. *)
Definition ewm_alpha (span : Z) : result float :=
  if (span <? 1)%Z then Raise ValueError
  else Ok (2 / float_of_Z (span + 1)).

(** [.mean()] of the exponential window, the recurrence of the docstring of
    [calculate_ema]: [EMA(t) = alpha * Price(t) + (1 - alpha) * EMA(t-1)],
    started at the first value. *)
Fixpoint ewm_from (alpha prev : float) (xs : list float) : list float :=
  match xs with
  | [] => []
  | x :: xs' =>
    let y := alpha * x + (1 - alpha) * prev in
    y :: ewm_from alpha y xs'
  end.

Definition ewm_mean (alpha : float) (xs : list float) : list float :=
  match xs with
  | [] => []
  | x0 :: xs' => x0 :: ewm_from alpha x0 xs'
  end.

Definition calculate_ema (s : TechnicalAnalysis) (period : Z)
    (price_column : string) : result (list float) :=
  try prices := column (data s) price_column in
  try alpha := ewm_alpha period in
  Ok (ewm_mean alpha prices).

(** [series.diff()]: the first difference is missing (NaN). *)
Fixpoint diff_from (prev : float) (xs : list float) : list float :=
  match xs with
  | [] => []
  | x :: xs' => (x - prev) :: diff_from x xs'
  end.

Definition diff (xs : list float) : list float :=
  match xs with
  | [] => []
  | x0 :: xs' => nan :: diff_from x0 xs'
  end.

Fixpoint zip_with (op : float -> float -> float) (xs ys : list float)
  : list float :=
  match xs, ys with
  | x :: xs', y :: ys' => op x y :: zip_with op xs' ys'
  | _, _ => []
  end.

(** The two smoothed series of [calculate_rsi]: [avg_gain] and [avg_loss]. *)
Definition rsi_averages (s : TechnicalAnalysis) (period : Z)
    (price_column : string) : result (list float * list float) :=
  try prices := column (data s) price_column in
  let delta := diff prices in
  let gain := map (fun d => if 0 <? d then d else 0) delta in
  let loss := map (fun d => - (if d <? 0 then d else 0)) delta in
  try alpha := ewm_alpha period in
  let avg_gain := ewm_mean alpha gain in
  let avg_loss := ewm_mean alpha loss in
  Ok (avg_gain, avg_loss).

Definition calculate_rsi (s : TechnicalAnalysis) (period : Z)
    (price_column : string) : result (list float) :=
  try averages := rsi_averages s period price_column in
  let rs := zip_with PrimFloat.div (fst averages) (snd averages) in
  let rsi := map (fun r => 100 - 100 / (1 + r)) rs in
  Ok rsi.

(** [series.shift(1)]: every value moves one position down, the first
    position is missing (NaN), the length is kept. *)
Definition series_shift (xs : list float) : list float :=
  firstn (List.length xs) (nan :: xs).

(** A comparison of two series, position by position. *)
Fixpoint compare_series (op : float -> float -> bool) (xs ys : list float)
  : list bool :=
  match xs, ys with
  | x :: xs', y :: ys' => op x y :: compare_series op xs' ys'
  | _, _ => []
  end.

(** [a & b] on two boolean series. *)
Fixpoint and_series (xs ys : list bool) : list bool :=
  match xs, ys with
  | x :: xs', y :: ys' => (x && y) :: and_series xs' ys'
  | _, _ => []
  end.

Definition detect_bullish_engulfing (s : TechnicalAnalysis) : list bool :=
  let curr_open := map bar_open (data s) in
  let curr_close := map bar_close (data s) in
  let prev_open := series_shift (map bar_open (data s)) in
  let prev_close := series_shift (map bar_close (data s)) in
  let prev_bearish := compare_series PrimFloat.ltb prev_close prev_open in
  let curr_bullish := compare_series PrimFloat.ltb curr_open curr_close in
  let engulfing :=
    and_series (compare_series PrimFloat.leb curr_open prev_close)
               (compare_series PrimFloat.leb prev_open curr_close) in
  and_series (and_series prev_bearish curr_bullish) engulfing.

Definition detect_bearish_engulfing (s : TechnicalAnalysis) : list bool :=
  let curr_open := map bar_open (data s) in
  let curr_close := map bar_close (data s) in
  let prev_open := series_shift (map bar_open (data s)) in
  let prev_close := series_shift (map bar_close (data s)) in
  let prev_bullish := compare_series PrimFloat.ltb prev_open prev_close in
  let curr_bearish := compare_series PrimFloat.ltb curr_close curr_open in
  let engulfing :=
    and_series (compare_series PrimFloat.leb prev_close curr_open)
               (compare_series PrimFloat.leb curr_close prev_open) in
  and_series (and_series prev_bullish curr_bearish) engulfing.

Close Scope float_scope.

(** *** Section 2 of the source: positions *)

Definition open_position (index : Z) (direction : string)
    (entry_price stop_loss take_profit : num) : M unit :=
  record_call
    (call_open_position index direction entry_price stop_loss take_profit) ;;
  row <- self_iloc index ;;
  modify_self
    (set_current_position
       (Some (mkPosition index direction entry_price stop_loss take_profit
                         (bar_datetime row)))).

Definition close_position (index : Z) (exit_price : num) (exit_reason : string)
  : M unit :=
  record_call (call_close_position index exit_price exit_reason) ;;
  s <- get_self ;;
  match current_position s with
  | None => ret tt
  | Some pos =>
    let direction := pos_direction pos in
    let entry_price := pos_entry_price pos in
    let commission_total := (entry_price * commission_rate s * Py 2)%num in
    let profit_loss_gross :=
      if String.eqb direction "long"
      then (exit_price - entry_price)%num
      else (entry_price - exit_price)%num in
    let profit_loss_net := (profit_loss_gross - commission_total)%num in
    q <- lift (num_div profit_loss_net entry_price) ;;
    let profit_loss_pct := (q * Py 100)%num in
    row <- self_iloc index ;;
    let trade :=
      mkTrade (pos_entry_time pos) (bar_datetime row) direction
              entry_price exit_price (pos_stop_loss pos) (pos_take_profit pos)
              profit_loss_net profit_loss_pct exit_reason commission_total in
    r <- lift (num_div profit_loss_pct (Py 100)) ;;
    modify_self
      (fun s => set_current_capital (current_capital s * (Py 1 + r))%num s) ;;
    modify_self (append_trade trade) ;;
    modify_self (set_current_position None)
  end.

(** The triple returned by [check_exit_conditions]:
    [(False, None, None)] is [NoExit], [(True, price, reason)] is [Exit]. *)
Inductive ExitCheck : Type :=
| NoExit
| Exit (price : num) (reason : string).

Definition check_exit_conditions (index : Z) : M ExitCheck :=
  record_call (call_check_exit_conditions index) ;;
  s <- get_self ;;
  match current_position s with
  | None => ret NoExit
  | Some pos =>
    row <- self_iloc index ;;
    if String.eqb (pos_direction pos) "long" then
      if (Np (bar_low row) <=? pos_stop_loss pos)%num then
        ret (Exit (pos_stop_loss pos) "SL")
      else if (Np (bar_high row) >=? pos_take_profit pos)%num then
        ret (Exit (pos_take_profit pos) "TP")
      else ret NoExit
    else
      if (Np (bar_high row) >=? pos_stop_loss pos)%num then
        ret (Exit (pos_stop_loss pos) "SL")
      else if (Np (bar_low row) <=? pos_take_profit pos)%num then
        ret (Exit (pos_take_profit pos) "TP")
      else ret NoExit
  end.

(** *** Section 3 of the source: the signal

    [generate_signal] returns [(direction, stop_loss, take_profit)];
    a direction [None] is [NoSignal]. *)
Inductive Signal : Type :=
| NoSignal
| Entry (direction : string) (stop_loss take_profit : num).

(** The method of the base class: it must be overridden. *)
Definition base_generate_signal (s : TechnicalAnalysis) (index : Z)
  : result Signal :=
  Raise NotImplementedError.

(** *** Section 4 of the source: the backtest loop *)

Section Engine.

(** The [generate_signal] of the object's class.  It reads the object and
    the index; it changes neither the object nor the data frame. *)
Variable generate_signal : TechnicalAnalysis -> Z -> result Signal.

Definition self_generate_signal (index : Z) : M Signal :=
  record_call (call_generate_signal index) ;;
  s <- get_self ;;
  lift (generate_signal s index).

(** Step 1 of the loop body.  The boolean tells whether the body ended
    with [continue]. *)
Definition exit_step (i : Z) : M bool :=
  s <- get_self ;;
  match current_position s with
  | Some _ =>
    x <- check_exit_conditions i ;;
    match x with
    | Exit exit_price exit_reason =>
      close_position i exit_price exit_reason ;;
      ret true
    | NoExit => ret false
    end
  | None => ret false
  end.

(** Step 2 of the loop body. *)
Definition entry_step (i : Z) : M unit :=
  s <- get_self ;;
  match current_position s with
  | None =>
    sig <- self_generate_signal i ;;
    match sig with
    | Entry direction stop_loss take_profit =>
      row <- self_iloc i ;;
      open_position i direction (Np (bar_close row)) stop_loss take_profit
    | NoSignal => ret tt
    end
  | Some _ => ret tt
  end.

Definition loop_body (i : Z) : M unit :=
  if i <? 200 then ret tt
  else
    continued <- exit_step i ;;
    if continued : bool then ret tt else entry_step i.

Fixpoint for_each (l : list Z) (body : Z -> M unit) : M unit :=
  match l with
  | [] => ret tt
  | i :: l' => body i ;; for_each l' body
  end.

Definition range (n : nat) : list Z := map Z.of_nat (seq 0 n).

(** [run_backtest].  Of the header it prints, only the reads of the first
    and of the last row can fail; the loop follows, then the forced close. *)
Definition run_backtest : M unit :=
  s <- get_self ;;
  _ <- self_iloc 0 ;;
  _ <- self_iloc (-1) ;;
  for_each (range (List.length (data s))) loop_body ;;
  s <- get_self ;;
  match current_position s with
  | Some _ =>
    let last_index := Z.of_nat (List.length (data s)) - 1 in
    row <- self_iloc last_index ;;
    close_position last_index (Np (bar_close row)) "End"
  | None => ret tt
  end.

End Engine.

(** *** Section 5 of the source: statistics *)

(** The dictionary returned by [calculate_statistics], key by key. *)
Record Statistics : Type := mkStatistics {
  total_trades : nat;
  winning_trades : nat;
  losing_trades : nat;
  win_rate : num;
  total_profit_loss : num;
  total_profit_loss_pct : num;
  total_commission_paid : num;
  avg_profit : num;
  avg_loss : num;
  profit_factor : num;
  max_drawdown : num;
  final_capital : num
}.

(** [sum(...)]: starts from the integer [0] and adds from left to right. *)
Definition py_sum (xs : list num) : num := fold_left num_add xs (Py 0).

(** [len(...)] used as a number. *)
Definition num_of_nat (n : nat) : num := Py (float_of_Z (Z.of_nat n)).

Definition winners (ts : list Trade) : list Trade :=
  filter (fun t => (profit_loss t >? Py 0)%num) ts.

Definition losers (ts : list Trade) : list Trade :=
  filter (fun t => (profit_loss t <=? Py 0)%num) ts.

Definition total_profit_of (ts : list Trade) : num :=
  py_sum (map profit_loss (winners ts)).

Definition total_loss_of (ts : list Trade) : num :=
  num_abs (py_sum (map profit_loss (losers ts))).

(** The loop that builds [capital_curve]. *)
Fixpoint capital_curve_loop (capital_curve : list num) (ts : list Trade)
  : result (list num) :=
  match ts with
  | [] => Ok capital_curve
  | trade :: ts' =>
    try r := num_div (profit_loss_pct trade) (Py 100) in
    capital_curve_loop
      (capital_curve ++ [(last capital_curve (Py 0) * (Py 1 + r))%num]) ts'
  end.

(** The loop over [capital_curve] that tracks the peak and the drawdown. *)
Fixpoint drawdown_loop (values : list num) (peak max_drawdown : num)
  : result num :=
  match values with
  | [] => Ok max_drawdown
  | value :: values' =>
    let peak := if (value >? peak)%num then value else peak in
    try q := num_div (peak - value)%num peak in
    let drawdown := (q * Py 100)%num in
    let max_drawdown :=
      if (drawdown >? max_drawdown)%num then drawdown else max_drawdown in
    drawdown_loop values' peak max_drawdown
  end.

Definition calculate_statistics (s : TechnicalAnalysis) : result Statistics :=
  match trades s with
  | [] =>
    Ok (mkStatistics 0 0 0 (Py 0) (Py 0) (Py 0) (Py 0) (Py 0) (Py 0) (Py 0)
                     (Py 0) (initial_capital s))
  | _ :: _ =>
    let winning_trades := winners (trades s) in
    let losing_trades := losers (trades s) in
    let total_profit := total_profit_of (trades s) in
    let total_loss := total_loss_of (trades s) in
    let total_commission := py_sum (map commission_paid (trades s)) in
    try capital_curve := capital_curve_loop [initial_capital s] (trades s) in
    try max_drawdown :=
      drawdown_loop capital_curve (hd (Py 0) capital_curve) (Py 0) in
    try win_rate :=
      match trades s with
      | [] => Ok (Py 0)
      | _ :: _ =>
        try q := num_div (num_of_nat (List.length winning_trades))
                         (num_of_nat (List.length (trades s))) in
        Ok (q * Py 100)%num
      end in
    try q := num_div (current_capital s - initial_capital s)%num
                     (initial_capital s) in
    let total_profit_loss_pct := (q * Py 100)%num in
    try avg_profit :=
      match winning_trades with
      | [] => Ok (Py 0)
      | _ :: _ => num_div total_profit (num_of_nat (List.length winning_trades))
      end in
    try avg_loss :=
      match losing_trades with
      | [] => Ok (Py 0)
      | _ :: _ => num_div total_loss (num_of_nat (List.length losing_trades))
      end in
    try profit_factor :=
      if (total_loss >? Py 0)%num then num_div total_profit total_loss
      else Ok (Py 0) in
    Ok (mkStatistics (List.length (trades s))
                     (List.length winning_trades)
                     (List.length losing_trades)
                     win_rate
                     (py_sum (map profit_loss (trades s)))
                     total_profit_loss_pct
                     total_commission
                     avg_profit
                     avg_loss
                     profit_factor
                     max_drawdown
                     (current_capital s))
  end.

(** ** Class [EMA_CrossoverStrategy]

    Its constructor adds the indicator columns to the data frame.  The signal
    reads [ema_25], [ema_50] and [ema_200]: a read of such a column is the
    value of [calculate_ema] on the [close] prices, which never change
    afterwards. *)

Definition series_at (xs : list float) (index : Z) : result num :=
  match nth_error xs (Z.to_nat index) with
  | Some x => Ok (Np x)
  | None => Raise IndexError
  end.

Definition EMA_CrossoverStrategy_generate_signal (s : TechnicalAnalysis)
    (index : Z) : result Signal :=
  if index <? 1 then Ok NoSignal
  else
    try current := iloc (data s) index in
    try previous := iloc (data s) (index - 1) in
    let close := Np (bar_close current) in
    let low := Np (bar_low current) in
    let high := Np (bar_high current) in
    try ema_25 := calculate_ema s 25 "close" in
    try ema_50 := calculate_ema s 50 "close" in
    try ema_200 := calculate_ema s 200 "close" in
    try ema25_curr := series_at ema_25 index in
    try ema50_curr := series_at ema_50 index in
    try ema200_curr := series_at ema_200 index in
    try ema25_prev := series_at ema_25 (index - 1) in
    try ema50_prev := series_at ema_50 (index - 1) in
    let min_candle_size := (Py 2 * commission_rate s * close)%num in
    let price_above_ema200 := (close >? ema200_curr)%num in
    let ema_bullish_cross :=
      (ema25_prev <? ema50_prev)%num && (ema25_curr >? ema50_curr)%num in
    let candle_size_long := (close - low)%num in
    let candle_filter_long := (candle_size_long >? min_candle_size)%num in
    if price_above_ema200 && ema_bullish_cross && candle_filter_long then
      let entry_price := close in
      let stop_loss := low in
      let risk := (entry_price - stop_loss)%num in
      let take_profit := (entry_price + Py 2 * risk)%num in
      Ok (Entry "long" stop_loss take_profit)
    else
      let price_below_ema200 := (close <? ema200_curr)%num in
      let ema_bearish_cross :=
        (ema25_prev >? ema50_prev)%num && (ema25_curr <? ema50_curr)%num in
      let candle_size_short := (high - close)%num in
      let candle_filter_short := (candle_size_short >? min_candle_size)%num in
      if price_below_ema200 && ema_bearish_cross && candle_filter_short then
        let entry_price := close in
        let stop_loss := high in
        let risk := (stop_loss - entry_price)%num in
        let take_profit := (entry_price - Py 2 * risk)%num in
        Ok (Entry "short" stop_loss take_profit)
      else Ok NoSignal.

(** ** Notions used by the properties *)

(** The bar reaches the stop level of the position. *)
Definition stop_reached (pos : Position) (row : Bar) : bool :=
  if String.eqb (pos_direction pos) "long"
  then (Np (bar_low row) <=? pos_stop_loss pos)%num
  else (Np (bar_high row) >=? pos_stop_loss pos)%num.

(** The bar reaches the target level of the position. *)
Definition target_reached (pos : Position) (row : Bar) : bool :=
  if String.eqb (pos_direction pos) "long"
  then (Np (bar_high row) >=? pos_take_profit pos)%num
  else (Np (bar_low row) <=? pos_take_profit pos)%num.

(** Gross profit or loss of a trade, in price units. *)
Definition gross_pnl (t : Trade) : num :=
  if String.eqb (direction t) "long"
  then (exit_price t - entry_price t)%num
  else (entry_price t - exit_price t)%num.

(** The accounting of a trade under a commission rate: the commission is
    paid on the entry price, twice; the net result is the gross one less the
    commission; the percentage is the net result over the entry price, times
    100, and that division did not raise. *)
Definition accounted (rate : num) (t : Trade) : Prop :=
  commission_paid t = (entry_price t * rate * Py 2)%num
  /\ profit_loss t = (gross_pnl t - commission_paid t)%num
  /\ div_raises (profit_loss t) (entry_price t) = false
  /\ profit_loss_pct t
     = (num_quot (profit_loss t) (entry_price t) * Py 100)%num.

(** The capital after a trade, for a capital [c] before it. *)
Definition compound (c : num) (t : Trade) : num :=
  (c * (Py 1 + num_quot (profit_loss_pct t) (Py 100)))%num.

(** The capital is the initial capital compounded over the trades, in order. *)
Definition compounded (s : TechnicalAnalysis) : Prop :=
  current_capital s = fold_left compound (trades s) (initial_capital s).

(** The bar index a recorded call was made with. *)
Definition call_index (c : Call) : Z :=
  match c with
  | call_open_position i _ _ _ _ => i
  | call_close_position i _ _ => i
  | call_check_exit_conditions i => i
  | call_generate_signal i => i
  end.

Definition is_open (c : Call) : bool :=
  match c with call_open_position _ _ _ _ _ => true | _ => false end.

Definition is_close (c : Call) : bool :=
  match c with call_close_position _ _ _ => true | _ => false end.

Definition is_check (c : Call) : bool :=
  match c with call_check_exit_conditions _ => true | _ => false end.

Definition is_signal (c : Call) : bool :=
  match c with call_generate_signal _ => true | _ => false end.

(** A close made for a matched exit condition: the reason is SL or TP. *)
Definition is_exit_close (c : Call) : bool :=
  match c with
  | call_close_position _ _ reason =>
    String.eqb reason "SL" || String.eqb reason "TP"
  | _ => false
  end.

(** What one pass of the loop body on bar [i] records:
    - every call bears the index [i], which is past the warm-up;
    - a position is opened only when none is held;
    - a close is one for a matched exit condition, and then the pass
      evaluates no signal and opens nothing. *)
Definition pass_event (i : Z) (e : Event) : Prop :=
  call_index (ev_call e) = i
  /\ 200 <= i
  /\ (is_open (ev_call e) = true -> ev_held e = None)
  /\ (is_close (ev_call e) = true -> is_exit_close (ev_call e) = true).

Definition pass_exclusive (new : list Event) : Prop :=
  existsb (fun e => is_close (ev_call e)) new = true ->
  existsb (fun e => is_signal (ev_call e) || is_open (ev_call e)) new = false.

Definition pass_calls (i : Z) (new : list Event) : Prop :=
  Forall (pass_event i) new /\ pass_exclusive new.

(** The calls a run records, pass by pass: the bar index of a pass with the
    calls of that pass. *)
Definition passes_ok (segs : list (Z * list Event)) : Prop :=
  Forall (fun sg => pass_calls (fst sg) (snd sg)) segs.

(** The forced close that may end a run. *)
Definition end_close (tail : list Event) : Prop :=
  tail = []
  \/ exists (i : Z) (price : num) (held : option Position),
       tail = [mkEvent (call_close_position i price "End") held].

(** The calls recorded by a run on an object, from an empty record. *)
Definition run_calls (generate_signal : TechnicalAnalysis -> Z -> result Signal)
    (s : TechnicalAnalysis) : list Event :=
  calls (snd (run_backtest generate_signal (mkWorld s []))).

(** What one pass of the loop, or the forced close, does to the object:
    nothing, an entry from the flat state, or an exit that records a trade
    and compounds the capital. *)
Inductive engine_step (s : TechnicalAnalysis) : TechnicalAnalysis -> Prop :=
| step_idle : engine_step s s
| step_entry (pos : Position) (row : Bar) :
    current_position s = None ->
    200 <= pos_index pos ->
    iloc (data s) (pos_index pos) = Ok row ->
    pos_entry_time pos = bar_datetime row ->
    engine_step s (set_current_position (Some pos) s)
| step_exit (pos : Position) (t : Trade) :
    current_position s = Some pos ->
    entry_time t = pos_entry_time pos ->
    accounted (commission_rate s) t ->
    engine_step s
      (set_current_position None
         (append_trade t
            (set_current_capital (compound (current_capital s) t) s))).

Inductive engine_steps (s : TechnicalAnalysis) : TechnicalAnalysis -> Prop :=
| steps_none : engine_steps s s
| steps_more (s1 s2 : TechnicalAnalysis) :
    engine_steps s s1 -> engine_step s1 s2 -> engine_steps s s2.

(** A time stamp of a bar past the warm-up. *)
Definition after_warmup (df : DataFrame) (time : datetime) : Prop :=
  exists (i : Z) (row : Bar),
    200 <= i /\ iloc df i = Ok row /\ bar_datetime row = time.

(** Position and trades were all entered past the warm-up. *)
Definition entered_after_warmup (s : TechnicalAnalysis) : Prop :=
  (forall pos : Position,
      current_position s = Some pos ->
      200 <= pos_index pos /\ after_warmup (data s) (pos_entry_time pos))
  /\ Forall (fun t => after_warmup (data s) (entry_time t)) (trades s).

(** The value of a series at a position, when the series was computed. *)
Definition series_nth (r : result (list float)) (i : nat) : option float :=
  match r with
  | Ok xs => nth_error xs i
  | Raise _ => None
  end.

(** The value of the oscillator for one pair of smoothed averages. *)
Definition rsi_value (avg_gain avg_loss : float) : float :=
  (100 - 100 / (1 + avg_gain / avg_loss))%float.

(** ** Sample data *)

(** A long position entered at 400 with the stop at 380 and the target at 440,
    and its mirror image, a short one. *)
Definition long_position : Position :=
  mkPosition 1 "long" (Np 400) (Np 380) (Np 440) 1.

Definition short_position : Position :=
  mkPosition 1 "short" (Np 400) (Np 420) (Np 360) 1.

(** Three bars; the last one spans both levels of either position. *)
Definition three_bars : DataFrame :=
  [ mkBar 0 400 401 399 400 0;
    mkBar 1 400 405 395 400 0;
    mkBar 2 400 450 350 410 0 ].

Definition holding (pos : option Position) : World :=
  mkWorld (mkTA three_bars (Py 100) (Py 100) (Py 0.0009765625) [] pos) [].

(** A series for a run: 201 bars of falling prices, then a rally.  The fast
    average crosses above the slow one at bar 202, above the 200-bar average;
    bar 203 reaches the target of the position opened there. *)
Definition falling_bar (i : nat) : Bar :=
  let p := (300 - float_of_Z (Z.of_nat i))%float in
  mkBar (Z.of_nat i) p (p + 1) (p - 1) p 0.

Definition sample_frame : DataFrame :=
  map falling_bar (seq 0 201)
  ++ [ mkBar 201 100 400 90 395 0;
       mkBar 202 395 405 380 400 0;
       mkBar 203 400 1300 390 1250 0 ].

Definition sample_strategy : TechnicalAnalysis :=
  mkTA sample_frame (Py 100) (Py 100) (Py 0.0009765625) [] None.

(** The opening call of the run on [sample_strategy], and its close. *)
Definition sample_open : Event :=
  mkEvent (call_open_position 202 "long" (Np 400) (Np 380) (Np 440)) None.

Definition sample_close : Event :=
  mkEvent (call_close_position 203 (Np 440) "TP")
          (Some (mkPosition 202 "long" (Np 400) (Np 380) (Np 440) 202)).

Definition sample_check : Event :=
  mkEvent (call_check_exit_conditions 203)
          (Some (mkPosition 202 "long" (Np 400) (Np 380) (Np 440) 202)).

(** The object of the sample run while it holds its position. *)
Definition sample_holding : World :=
  mkWorld (set_current_position
             (Some (mkPosition 202 "long" (Np 400) (Np 380) (Np 440) 202))
             sample_strategy) [].

(** The smoothed average loss of [calculate_rsi], as a series. *)
Definition avg_loss_series (s : TechnicalAnalysis) (period : Z)
    (price_column : string) : result (list float) :=
  try averages := rsi_averages s period price_column in
  Ok (snd averages).

(** An object on [three_bars], whose closes are 400, 400 and 410. *)
Definition three_bar_analysis : TechnicalAnalysis :=
  mkTA three_bars (Py 100) (Py 100) (Py 0.0009765625) [] None.

(** The object of the sample run when the run is over. *)
Definition sample_result : TechnicalAnalysis :=
  self (snd (run_backtest EMA_CrossoverStrategy_generate_signal
                          (mkWorld sample_strategy []))).

(** ** Notions used by the further properties *)

(** The conditions of the two candle patterns, as their docstrings list
    them, on a candle and the one before it. *)
Definition bullish_pair (prev cur : Bar) : bool :=
  PrimFloat.ltb (bar_close prev) (bar_open prev)
  && PrimFloat.ltb (bar_open cur) (bar_close cur)
  && (PrimFloat.leb (bar_open cur) (bar_close prev)
      && PrimFloat.leb (bar_open prev) (bar_close cur)).

Definition bearish_pair (prev cur : Bar) : bool :=
  PrimFloat.ltb (bar_open prev) (bar_close prev)
  && PrimFloat.ltb (bar_close cur) (bar_open cur)
  && (PrimFloat.leb (bar_close prev) (bar_open cur)
      && PrimFloat.leb (bar_close cur) (bar_open prev)).

(** Two candles: a falling one, then a rising one that engulfs it. *)
Definition engulfing_bars : DataFrame :=
  [ mkBar 0 10 11 7 8 0;
    mkBar 1 7 12 6 11 0 ].

Definition engulfing_analysis : TechnicalAnalysis :=
  mkTA engulfing_bars (Py 100) (Py 100) (Py 0) [] None.

(** [three_bars] with one more bar. *)
Definition four_bars : DataFrame :=
  three_bars ++ [ mkBar 3 410 420 405 415 0 ].

Definition four_bar_analysis : TechnicalAnalysis :=
  mkTA four_bars (Py 100) (Py 100) (Py 0.0009765625) [] None.

(** The object of the sample run, with one more bar in its frame. *)
Definition sample_frame_extended : DataFrame :=
  sample_frame ++ [ mkBar 204 1250 1260 1240 1255 0 ].

Definition sample_strategy_extended : TechnicalAnalysis :=
  mkTA sample_frame_extended (Py 100) (Py 100) (Py 0.0009765625) [] None.

(** The position held, if any, was entered at a price read from the data
    frame. *)
Definition priced_from_data (s : TechnicalAnalysis) : Prop :=
  forall pos : Position,
    current_position s = Some pos ->
    exists f : float, pos_entry_price pos = Np f.

(** The signal method returns on every bar of the frame past the warm-up. *)
Definition signal_returns
    (generate_signal : TechnicalAnalysis -> Z -> result Signal) : Prop :=
  forall (s : TechnicalAnalysis) (i : Z) (row : Bar),
    200 <= i ->
    iloc (data s) i = Ok row ->
    exists sig : Signal, generate_signal s i = Ok sig.

(** How a trade of a run was closed: at its stop, at its target, or at the
    close of the last bar of the frame. *)
Definition exit_of_run (df : DataFrame) (t : Trade) : Prop :=
  (exit_reason t = "SL" /\ exit_price t = stop_loss t)
  \/ (exit_reason t = "TP" /\ exit_price t = take_profit t)
  \/ (exit_reason t = "End"
      /\ exists row : Bar,
           iloc df (Z.of_nat (List.length df) - 1) = Ok row
           /\ exit_price t = Np (bar_close row)
           /\ exit_time t = bar_datetime row).

(** The two entries the crossover signal can return on a bar. *)
Definition long_entry (row : Bar) : Signal :=
  Entry "long" (Np (bar_low row))
        (Np (bar_close row)
         + Py 2 * (Np (bar_close row) - Np (bar_low row)))%num.

Definition short_entry (row : Bar) : Signal :=
  Entry "short" (Np (bar_high row))
        (Np (bar_close row)
         - Py 2 * (Np (bar_high row) - Np (bar_close row)))%num.

(** An entry that comes from the signal method: on some bar past the
    warm-up, with no position held, the method returned this direction, stop
    and target; the entry price is the close of that bar and the entry time
    its time stamp. *)
Definition from_signal
    (generate_signal : TechnicalAnalysis -> Z -> result Signal)
    (df : DataFrame) (rate : num)
    (dir : string) (entry sl tp : num) (time : datetime) : Prop :=
  exists (s : TechnicalAnalysis) (i : Z) (row : Bar),
    data s = df /\ commission_rate s = rate /\ current_position s = None
    /\ 200 <= i
    /\ iloc df i = Ok row
    /\ generate_signal s i = Ok (Entry dir sl tp)
    /\ entry = Np (bar_close row)
    /\ time = bar_datetime row.

Definition position_from_signal
    (generate_signal : TechnicalAnalysis -> Z -> result Signal)
    (df : DataFrame) (rate : num) (pos : Position) : Prop :=
  from_signal generate_signal df rate (pos_direction pos)
              (pos_entry_price pos) (pos_stop_loss pos) (pos_take_profit pos)
              (pos_entry_time pos).

Definition trade_from_signal
    (generate_signal : TechnicalAnalysis -> Z -> result Signal)
    (df : DataFrame) (rate : num) (t : Trade) : Prop :=
  from_signal generate_signal df rate (direction t) (entry_price t)
              (stop_loss t) (take_profit t) (entry_time t).

(** Every entry recorded in the object comes from the signal method. *)
Definition entries_from_signal
    (generate_signal : TechnicalAnalysis -> Z -> result Signal)
    (s : TechnicalAnalysis) : Prop :=
  (forall pos : Position,
      current_position s = Some pos ->
      position_from_signal generate_signal (data s) (commission_rate s) pos)
  /\ Forall (trade_from_signal generate_signal (data s) (commission_rate s))
            (trades s).

(** * Properties *)

(** ** Tactics *)

(** Reduction of the projections of the object and of the world. *)
Ltac mred :=
  cbn beta iota zeta
      delta [fst snd self calls data initial_capital current_capital
             commission_rate trades current_position
             set_current_position set_current_capital append_trade] in *.

Ltac unfold_monad :=
  unfold bind, ret, lift, get_self, modify_self, record_call, self_iloc in *;
  mred.

(** Case analysis on an innermost scrutinee of the goal. *)
Ltac break_match :=
  match goal with
  | H : ?x = _ |- context [match ?x with _ => _ end] => rewrite H
  | |- context [match ?x with _ => _ end] =>
    lazymatch x with
    | context [match _ with _ => _ end] => fail
    | _ => destruct x eqn:?
    end
  end.

(** The calls recorded by a computation that has been unfolded to the end:
    a list of events after those of the start. *)
Ltac name_calls :=
  first [ exists []; split; [symmetry; apply app_nil_r|]
        | eexists; split; [rewrite <- ?app_assoc; reflexivity|] ].

(** ** Numbers *)

Lemma num_div_ok (x y q : num) :
  num_div x y = Ok q -> q = num_quot x y /\ div_raises x y = false.
Proof.
  unfold num_div; destruct (div_raises x y); [discriminate|].
  intros H; injection H as <-; auto.
Qed.

Lemma num_div_total (x y : num) :
  div_raises x y = false -> num_div x y = Ok (num_quot x y).
Proof. unfold num_div; now intros ->. Qed.

Lemma num_div_100 (x : num) : num_div x (Py 100) = Ok (num_quot x (Py 100)).
Proof. destruct x; reflexivity. Qed.

(** A division with a [numpy.float64] operand never raises. *)
Lemma div_raises_np (x y : num) (f : float) :
  x = Np f \/ y = Np f -> div_raises x y = false.
Proof. intros [-> | ->]; [destruct y | destruct x]; reflexivity. Qed.

(** *** Binary64 facts, from the specification of the primitive floats *)

Open Scope float_scope.

Lemma float_is_zero (x : float) :
  (x =? 0) = true -> exists sign : bool, Prim2SF x = S754_zero sign.
Proof.
  rewrite FloatAxioms.eqb_spec; unfold SFeqb.
  change (Prim2SF 0) with (S754_zero false).
  destruct (Prim2SF x) as [sign|sign| |sign m e]; cbn; try discriminate.
  - eauto.
  - destruct sign; discriminate.
  - destruct sign; discriminate.
Qed.

Lemma float_is_positive (x : float) :
  (0 <? x) = true ->
  Prim2SF x = S754_infinity false
  \/ exists (m : positive) (e : Z), Prim2SF x = S754_finite false m e.
Proof.
  rewrite FloatAxioms.ltb_spec; unfold SFltb.
  change (Prim2SF 0) with (S754_zero false).
  destruct (Prim2SF x) as [sign|sign| |sign m e]; cbn; try discriminate.
  - destruct sign; [discriminate | auto].
  - destruct sign; [discriminate | eauto].
Qed.

Lemma zero_not_positive (x : float) :
  (x =? 0) = true -> (0 <? x) = false.
Proof.
  intros Hz; destruct (float_is_zero x Hz) as (sign & Hx).
  rewrite FloatAxioms.ltb_spec, Hx; reflexivity.
Qed.

Lemma nan_is_not_100 : nan <> 100.
Proof.
  intros H; apply (f_equal is_nan) in H; vm_compute in H; discriminate.
Qed.

Close Scope float_scope.

Lemma num_gtb_zero (x : num) :
  PrimFloat.eqb (val x) 0 = true -> (x >? Py 0)%num = false.
Proof. intros H; unfold num_gtb; cbn [val]; now apply zero_not_positive. Qed.

(** ** Exit priority *)

(** The stop level is tested first: once it is reached, the target plays no
    part in the answer. *)
Lemma check_exit_conditions_stop
    (w : World) (index : Z) (pos : Position) (row : Bar) :
  current_position (self w) = Some pos ->
  iloc (data (self w)) index = Ok row ->
  stop_reached pos row = true ->
  fst (check_exit_conditions index w) = Ok (Exit (pos_stop_loss pos) "SL")
  /\ self (snd (check_exit_conditions index w)) = self w.
Proof.
  intros Hpos Hrow Hsl.
  unfold check_exit_conditions, stop_reached in *.
  unfold_monad.
  rewrite Hpos; mred; rewrite Hrow.
  destruct (String.eqb (pos_direction pos) "long"); rewrite Hsl; auto.
Qed.

Lemma check_exit_conditions_target
    (w : World) (index : Z) (pos : Position) (row : Bar) :
  current_position (self w) = Some pos ->
  iloc (data (self w)) index = Ok row ->
  stop_reached pos row = false ->
  target_reached pos row = true ->
  fst (check_exit_conditions index w) = Ok (Exit (pos_take_profit pos) "TP").
Proof.
  intros Hpos Hrow Hsl Htp.
  unfold check_exit_conditions, stop_reached, target_reached in *.
  unfold_monad.
  rewrite Hpos; mred; rewrite Hrow.
  destruct (String.eqb (pos_direction pos) "long"); rewrite Hsl, Htp; auto.
Qed.

Lemma check_exit_conditions_neither
    (w : World) (index : Z) (pos : Position) (row : Bar) :
  current_position (self w) = Some pos ->
  iloc (data (self w)) index = Ok row ->
  stop_reached pos row = false ->
  target_reached pos row = false ->
  fst (check_exit_conditions index w) = Ok NoExit.
Proof.
  intros Hpos Hrow Hsl Htp.
  unfold check_exit_conditions, stop_reached, target_reached in *.
  unfold_monad.
  rewrite Hpos; mred; rewrite Hrow.
  destruct (String.eqb (pos_direction pos) "long"); rewrite Hsl, Htp; auto.
Qed.

(** C1: with a position open, on a bar whose range reaches the stop level and
    the target level at once (long: low <= stop_loss and high >= take_profit;
    short: high >= stop_loss and low <= take_profit), check_exit_conditions
    returns the exit at the stop_loss price with reason SL, and changes
    nothing in the object. *)
Theorem check_exit_conditions_stop_first :
  forall (w : World) (index : Z) (pos : Position) (row : Bar),
    current_position (self w) = Some pos ->
    iloc (data (self w)) index = Ok row ->
    stop_reached pos row = true ->
    target_reached pos row = true ->
    fst (check_exit_conditions index w) = Ok (Exit (pos_stop_loss pos) "SL")
    /\ self (snd (check_exit_conditions index w)) = self w.
Proof.
  intros w index pos row Hpos Hrow Hsl _.
  now apply check_exit_conditions_stop with row.
Qed.

Lemma check_exit_conditions_stop_first_witness :
  fst (check_exit_conditions 2 (holding (Some long_position)))
    = Ok (Exit (Np 380) "SL")
  /\ fst (check_exit_conditions 2 (holding (Some short_position)))
    = Ok (Exit (Np 420) "SL").
Proof.
  split.
  - apply (check_exit_conditions_stop_first
             (holding (Some long_position)) 2 long_position
             (mkBar 2 400 450 350 410 0));
      reflexivity.
  - apply (check_exit_conditions_stop_first
             (holding (Some short_position)) 2 short_position
             (mkBar 2 400 450 350 410 0));
      reflexivity.
Defined.

(** ** The object, step by step *)

Lemma engine_steps_trans (s1 s2 s3 : TechnicalAnalysis) :
  engine_steps s1 s2 -> engine_steps s2 s3 -> engine_steps s1 s3.
Proof.
  intros H12 H23; induction H23; [assumption|].
  econstructor; eassumption.
Qed.

Lemma engine_step_frame (s s' : TechnicalAnalysis) :
  engine_step s s' ->
  data s' = data s /\ initial_capital s' = initial_capital s
  /\ commission_rate s' = commission_rate s.
Proof. destruct 1; cbn; auto. Qed.

Lemma engine_steps_frame (s s' : TechnicalAnalysis) :
  engine_steps s s' ->
  data s' = data s /\ initial_capital s' = initial_capital s
  /\ commission_rate s' = commission_rate s.
Proof.
  induction 1 as [|s1 s2 _ (Hd & Hi & Hc) Hstep]; auto.
  destruct (engine_step_frame _ _ Hstep) as (Hd' & Hi' & Hc').
  repeat split; congruence.
Qed.

(** A step changes the capital only by compounding it with the trade it
    appends. *)
Lemma engine_step_capital (s s' : TechnicalAnalysis) :
  engine_step s s' ->
  (trades s' = trades s /\ current_capital s' = current_capital s)
  \/ exists t : Trade,
       trades s' = trades s ++ [t]
       /\ current_capital s' = compound (current_capital s) t.
Proof. destruct 1; cbn; eauto. Qed.

Lemma engine_step_compounded (s s' : TechnicalAnalysis) :
  engine_step s s' -> compounded s -> compounded s'.
Proof.
  unfold compounded; intros Hstep Hc.
  destruct (engine_step_frame _ _ Hstep) as (_ & Hi & _).
  destruct (engine_step_capital _ _ Hstep) as [[Ht Hcap]|(t & Ht & Hcap)];
    rewrite Ht, Hcap, Hi, Hc; [reflexivity|].
  now rewrite fold_left_app.
Qed.

Lemma engine_steps_compounded (s s' : TechnicalAnalysis) :
  engine_steps s s' -> compounded s -> compounded s'.
Proof. induction 1; eauto using engine_step_compounded. Qed.

Lemma engine_step_warmup (s s' : TechnicalAnalysis) :
  engine_step s s' -> entered_after_warmup s -> entered_after_warmup s'.
Proof.
  unfold entered_after_warmup; intros Hstep [Hpos Htr].
  destruct Hstep as [|pos row Hflat Hidx Hrow Htime|pos t Hheld Htime _]; cbn.
  - auto.
  - split; [|assumption].
    intros pos' [= <-]; split; [assumption|].
    exists (pos_index pos), row; auto.
  - split; [discriminate|].
    apply Forall_app; split; [assumption|].
    constructor; [|constructor].
    rewrite Htime; now apply Hpos.
Qed.

Lemma engine_steps_warmup (s s' : TechnicalAnalysis) :
  engine_steps s s' -> entered_after_warmup s -> entered_after_warmup s'.
Proof. induction 1; eauto using engine_step_warmup. Qed.

Lemma engine_step_accounted (s s' : TechnicalAnalysis) :
  engine_step s s' ->
  Forall (accounted (commission_rate s)) (trades s) ->
  Forall (accounted (commission_rate s')) (trades s').
Proof.
  destruct 1 as [| |pos t _ _ Hacc]; cbn; auto.
  intros Hall; apply Forall_app; split; [assumption|].
  constructor; [assumption | constructor].
Qed.

Lemma engine_steps_accounted (s s' : TechnicalAnalysis) :
  engine_steps s s' ->
  Forall (accounted (commission_rate s)) (trades s) ->
  Forall (accounted (commission_rate s')) (trades s').
Proof. induction 1; eauto using engine_step_accounted. Qed.

(** The exit step, from the facts a call of close_position leaves behind. *)
Ltac exit_step_of_close :=
  match goal with
  | H : num_div _ _ = Ok _ |- _ =>
    apply num_div_ok in H; destruct H as [-> ?]
  end;
  eapply (step_exit _ _ (mkTrade _ _ _ _ _ _ _ _ _ _ _));
  [ eassumption
  | reflexivity
  | unfold accounted, gross_pnl;
    cbn [direction entry_price exit_price commission_paid profit_loss
         profit_loss_pct];
    match goal with
    | H : String.eqb _ "long" = _ |- _ => rewrite H
    end;
    repeat split; assumption ].

Lemma close_position_step (index : Z) (price : num) (reason : string)
    (w : World) :
  engine_step (self w) (self (snd (close_position index price reason w))).
Proof.
  unfold close_position; unfold_monad.
  repeat (first [rewrite num_div_100 | break_match]; mred);
    first [ apply step_idle | exit_step_of_close ].
Qed.

Lemma range_NoDup (n : nat) : NoDup (map Z.of_nat (seq 0 n)).
Proof.
  apply Finite.Injective_map_NoDup.
  - intros a b; apply Nat2Z.inj.
  - apply seq_NoDup.
Qed.

Lemma range_below (n : nat) :
  Forall (fun i => i < Z.of_nat n) (map Z.of_nat (seq 0 n)).
Proof.
  apply Forall_forall; intros i Hi.
  apply in_map_iff in Hi as (k & <- & Hk).
  apply in_seq in Hk; lia.
Qed.

(** ** The calls of a run, pass by pass *)

Lemma pass_calls_nil (i : Z) : pass_calls i [].
Proof. split; [constructor | intros H; discriminate H]. Qed.

Lemma passes_ok_idle (l : list Z) :
  passes_ok (map (fun j => (j, [])) l).
Proof.
  unfold passes_ok; induction l; cbn; constructor; auto using pass_calls_nil.
Qed.

Lemma concat_idle (l : list Z) :
  List.concat (map snd (map (fun j => (j, @nil Event)) l)) = [].
Proof. induction l; cbn; auto. Qed.

Lemma in_pass (segs : list (Z * list Event)) (e : Event) :
  passes_ok segs ->
  In e (List.concat (map snd segs)) ->
  exists (i : Z) (new : list Event),
    In (i, new) segs /\ In e new /\ pass_event i e /\ pass_exclusive new.
Proof.
  intros Hok Hin.
  apply in_concat in Hin as (new & Hnew & He).
  apply in_map_iff in Hnew as ([i new'] & <- & Hsg); cbn in *.
  unfold passes_ok in Hok; rewrite Forall_forall in Hok.
  destruct (Hok _ Hsg) as [Hev Hex]; cbn in *.
  rewrite Forall_forall in Hev.
  exists i, new'; auto.
Qed.

Lemma pass_unique (segs : list (Z * list Event)) (i : Z)
    (a b : list Event) :
  NoDup (map fst segs) -> In (i, a) segs -> In (i, b) segs -> a = b.
Proof.
  induction segs as [|[j c] segs IH]; cbn; intros Hnd Ha Hb; [easy|].
  inversion Hnd as [|? ? Hnot Hnd']; subst.
  destruct Ha as [Ha|Ha], Hb as [Hb|Hb].
  - congruence.
  - injection Ha as -> ->. exfalso; apply Hnot.
    apply in_map_iff; exists (i, b); auto.
  - injection Hb as -> ->. exfalso; apply Hnot.
    apply in_map_iff; exists (i, a); auto.
  - auto.
Qed.

Lemma end_close_call (tail : list Event) (e : Event) :
  end_close tail -> In e tail ->
  is_open (ev_call e) = false /\ is_check (ev_call e) = false
  /\ is_signal (ev_call e) = false /\ is_exit_close (ev_call e) = false.
Proof.
  intros [->|(i & p & held & ->)] Hin; [easy|].
  destruct Hin as [<-|[]]; cbn; auto.
Qed.

Section EngineFacts.

Variable generate_signal : TechnicalAnalysis -> Z -> result Signal.

Lemma loop_body_calls (i : Z) (w : World) :
  exists new : list Event,
    calls (snd (loop_body generate_signal i w)) = calls w ++ new
    /\ pass_calls i new.
Proof.
  unfold loop_body, exit_step, entry_step, check_exit_conditions,
    close_position, open_position, self_generate_signal.
  unfold_monad.
  repeat (break_match; mred);
    name_calls;
    (split;
     [ repeat constructor; cbn; try discriminate; try congruence;
       try (apply Z.ltb_ge; assumption)
     | intros H; cbn in *; congruence ]).
Qed.

(** The loop records the calls of its passes, one pass per index. *)
Lemma for_each_calls (l : list Z) (w : World) :
  exists segs : list (Z * list Event),
    map fst segs = l
    /\ calls (snd (for_each l (loop_body generate_signal) w))
       = calls w ++ List.concat (map snd segs)
    /\ passes_ok segs.
Proof.
  revert w; induction l as [|i l IH]; intros w.
  - exists []; cbn; rewrite app_nil_r; repeat split; constructor.
  - destruct (loop_body_calls i w) as (new & Hnew & Hpass).
    cbn [for_each]; unfold bind at 1.
    destruct (loop_body generate_signal i w) as [[[]|e] w1]; cbn [snd] in *.
    + destruct (IH w1) as (segs & Hfst & Hcalls & Hok).
      exists ((i, new) :: segs); cbn; repeat split.
      * now rewrite Hfst.
      * now rewrite Hcalls, Hnew, app_assoc.
      * constructor; auto.
    + exists ((i, new) :: map (fun j => (j, [])) l); cbn; repeat split.
      * rewrite map_map; cbn; now rewrite map_id.
      * now rewrite concat_idle, app_nil_r.
      * constructor; [assumption | apply passes_ok_idle].
Qed.

(** The calls of a run: those of the passes, then at most a forced close. *)
Lemma run_backtest_calls (w : World) :
  exists (segs : list (Z * list Event)) (tail : list Event),
    calls (snd (run_backtest generate_signal w))
      = calls w ++ List.concat (map snd segs) ++ tail
    /\ NoDup (map fst segs)
    /\ passes_ok segs
    /\ end_close tail.
Proof.
  unfold run_backtest; unfold_monad.
  destruct (iloc (data (self w)) 0) as [r0|e0]; mred;
    [|exists [], []; cbn; rewrite app_nil_r; repeat split;
      [constructor | constructor | now left]].
  destruct (iloc (data (self w)) (-1)) as [r1|e1]; mred;
    [|exists [], []; cbn; rewrite app_nil_r; repeat split;
      [constructor | constructor | now left]].
  destruct (for_each_calls (range (List.length (data (self w)))) w)
    as (segs & Hfst & Hcalls & Hok).
  destruct (for_each _ _ w) as [[[]|e] w1]; cbn [snd] in *; mred.
  - destruct (current_position (self w1)) as [pos|] eqn:Hpos; mred.
    + destruct (iloc (data (self w1)) _) as [row|e]; mred.
      * unfold close_position; unfold_monad; rewrite Hpos; mred.
        exists segs.
        repeat (break_match; mred); rewrite Hcalls.
        all: first
          [ exists []; rewrite app_nil_r; repeat split; auto;
            [rewrite Hfst; apply range_NoDup | now left]
          | eexists; rewrite <- !app_assoc; repeat split; auto;
            [rewrite Hfst; apply range_NoDup | right; eauto] ].
      * exists segs, []; rewrite app_nil_r, Hcalls; repeat split; auto;
          [rewrite Hfst; apply range_NoDup | now left].
    + exists segs, []; rewrite app_nil_r, Hcalls; repeat split; auto;
        [rewrite Hfst; apply range_NoDup | now left].
  - exists segs, []; rewrite app_nil_r, Hcalls; repeat split; auto;
      [rewrite Hfst; apply range_NoDup | now left].
Qed.

(** Every call recorded by a run is a call of a pass or the forced close. *)
Lemma run_calls_cases (s : TechnicalAnalysis) :
  exists (segs : list (Z * list Event)) (tail : list Event),
    NoDup (map fst segs) /\ passes_ok segs /\ end_close tail
    /\ forall e : Event,
         In e (run_calls generate_signal s) ->
         In e (List.concat (map snd segs)) \/ In e tail.
Proof.
  destruct (run_backtest_calls (mkWorld s []))
    as (segs & tail & Hcalls & Hnd & Hok & Hend).
  exists segs, tail; repeat split; auto.
  intros e; unfold run_calls; rewrite Hcalls; cbn.
  apply in_app_or.
Qed.

(** *** The steps of a run *)

Lemma loop_body_step (i : Z) (w : World) :
  engine_step (self w) (self (snd (loop_body generate_signal i w))).
Proof.
  unfold loop_body, exit_step, entry_step, check_exit_conditions,
    close_position, open_position, self_generate_signal.
  unfold_monad.
  repeat (first [rewrite num_div_100 | break_match]; mred);
  try apply step_idle; try congruence; try exit_step_of_close;
  eapply (step_entry _ (mkPosition _ _ _ _ _ _));
  [ assumption | apply Z.ltb_ge; eassumption | eassumption | reflexivity ].
Qed.

Lemma for_each_steps (l : list Z) (w : World) :
  engine_steps (self w)
               (self (snd (for_each l (loop_body generate_signal) w))).
Proof.
  revert w; induction l as [|i l IH]; intros w; [constructor|].
  cbn [for_each]; unfold bind at 1.
  pose proof (loop_body_step i w) as Hstep.
  destruct (loop_body generate_signal i w) as [[[]|e] w1]; cbn [snd] in *.
  - apply engine_steps_trans with (self w1); [|apply IH].
    econstructor; [constructor | exact Hstep].
  - econstructor; [constructor | exact Hstep].
Qed.

Lemma run_backtest_steps (w : World) :
  engine_steps (self w) (self (snd (run_backtest generate_signal w))).
Proof.
  unfold run_backtest; unfold_monad.
  destruct (iloc (data (self w)) 0); mred; [|constructor].
  destruct (iloc (data (self w)) (-1)); mred; [|constructor].
  pose proof (for_each_steps (range (List.length (data (self w)))) w)
    as Hloop.
  destruct (for_each _ _ w) as [[[]|e] w1]; cbn [snd] in *; mred; auto.
  destruct (current_position (self w1)); mred; auto.
  destruct (iloc (data (self w1)) _) as [row|e]; mred; auto.
  econstructor; [exact Hloop | apply close_position_step].
Qed.

(** On the bars of the warm-up the loop body does nothing. *)
Lemma for_each_warmup (l : list Z) (w : World) :
  Forall (fun i => i < 200) l ->
  for_each l (loop_body generate_signal) w = (Ok tt, w).
Proof.
  induction 1 as [|i l Hi _ IH]; [reflexivity|].
  cbn [for_each]; unfold bind at 1, loop_body at 1.
  apply Z.ltb_lt in Hi; rewrite Hi; exact IH.
Qed.

End EngineFacts.

(** ** The constructor *)

Lemma init_fresh (df : DataFrame) (ic cr : num) (s : TechnicalAnalysis) :
  __init__ df ic cr = Ok s ->
  s = mkTA df ic ic cr [] None.
Proof. unfold __init__; congruence. Qed.

Lemma init_compounded (df : DataFrame) (ic cr : num) (s : TechnicalAnalysis) :
  __init__ df ic cr = Ok s -> compounded s.
Proof. intros H; rewrite (init_fresh _ _ _ _ H); reflexivity. Qed.

(** What a run reaches from a constructed object. *)
Lemma run_from_init
    (generate_signal : TechnicalAnalysis -> Z -> result Signal)
    (df : DataFrame) (ic cr : num) (s : TechnicalAnalysis) :
  __init__ df ic cr = Ok s ->
  engine_steps (mkTA df ic ic cr [] None)
               (self (snd (run_backtest generate_signal (mkWorld s [])))).
Proof.
  intros Hinit; apply init_fresh in Hinit; subst s.
  exact (run_backtest_steps generate_signal
           (mkWorld (mkTA df ic ic cr [] None) [])).
Qed.

(** ** Accounting of a closed trade *)

(** C2: (1) a call of close_position that returns with a position open
    appends one trade, with the direction and the entry price of the
    position and the exit price of the call; its commission_paid is
    entry_price * commission_rate * 2, its profit_loss is the gross result
    (exit - entry for long, entry - exit otherwise) minus commission_paid, and
    its profit_loss_pct is profit_loss / entry_price * 100, a division that
    did not raise.  (2) Every trade recorded by a run on a constructed object
    is accounted that way. *)
Theorem close_position_accounting :
  (forall (w w' : World) (index : Z) (price : num) (reason : string)
          (pos : Position),
      current_position (self w) = Some pos ->
      close_position index price reason w = (Ok tt, w') ->
      exists t : Trade,
        trades (self w') = trades (self w) ++ [t]
        /\ direction t = pos_direction pos
        /\ entry_price t = pos_entry_price pos
        /\ exit_price t = price
        /\ accounted (commission_rate (self w)) t)
  /\ (forall (generate_signal : TechnicalAnalysis -> Z -> result Signal)
             (df : DataFrame) (ic cr : num) (s : TechnicalAnalysis)
             (t : Trade),
        __init__ df ic cr = Ok s ->
        In t (trades (self (snd (run_backtest generate_signal
                                              (mkWorld s []))))) ->
        accounted cr t).
Proof.
  split.
  - intros w w' index price reason pos Hpos Hrun.
    unfold close_position in Hrun; unfold_monad.
    rewrite Hpos in Hrun; mred.
    destruct (num_div _ (pos_entry_price pos)) as [q|e] eqn:Hq;
      [|discriminate]; mred.
    destruct (iloc (data (self w)) index) as [row|e]; [|discriminate]; mred.
    rewrite num_div_100 in Hrun; mred.
    injection Hrun as Hw'; subst w'; mred.
    destruct (num_div_ok _ _ _ Hq) as [-> Hraise].
    eexists; split; [reflexivity|].
    unfold accounted, gross_pnl;
      cbn [direction entry_price exit_price commission_paid
           profit_loss profit_loss_pct].
    repeat split; try reflexivity. exact Hraise.
  - intros gs df ic cr s t Hinit Hin.
    pose proof (run_from_init gs df ic cr s Hinit) as Hsteps.
    destruct (engine_steps_frame _ _ Hsteps) as (_ & _ & Hrate).
    pose proof (engine_steps_accounted _ _ Hsteps (Forall_nil _)) as Hall.
    rewrite Hrate in Hall; cbn in Hall.
    rewrite Forall_forall in Hall; auto.
Qed.

Lemma close_position_accounting_witness :
  (exists t : Trade,
      trades (self (snd (close_position 2 (Np 440) "TP"
                           (holding (Some long_position)))))
      = [] ++ [t]
      /\ exit_price t = Np 440
      /\ accounted (Py 0.0009765625) t)
  /\ Forall (accounted (Py 0.0009765625)) (trades sample_result).
Proof.
  destruct close_position_accounting as [Hcall Hrun].
  split.
  - destruct (Hcall (holding (Some long_position))
                    (snd (close_position 2 (Np 440) "TP"
                            (holding (Some long_position))))
                    2 (Np 440) "TP" long_position)
      as (t & Ht & _ & _ & Hexit & Hacc).
    + reflexivity.
    + reflexivity.
    + exists t; auto.
  - apply Forall_forall; intros t Ht.
    exact (Hrun EMA_CrossoverStrategy_generate_signal sample_frame
                (Py 100) (Py 0.0009765625) sample_strategy t eq_refl Ht).
Defined.

(** close_position returns when the row exists and the entry price is a
    value read from the data frame. *)
Lemma close_position_returns (w : World) (index : Z) (price : num)
    (reason : string) (pos : Position) (row : Bar) (f : float) :
  current_position (self w) = Some pos ->
  pos_entry_price pos = Np f ->
  iloc (data (self w)) index = Ok row ->
  fst (close_position index price reason w) = Ok tt.
Proof.
  intros Hpos Hentry Hrow.
  unfold close_position; unfold_monad.
  rewrite Hpos; mred.
  rewrite num_div_total by (apply div_raises_np with f; auto); mred.
  rewrite Hrow; mred.
  rewrite num_div_100; reflexivity.
Qed.

(** C10: without a position, close_position returns at once: it raises
    nothing and leaves the object (the trades, the capital, the position and
    everything else) as it was. *)
Theorem close_position_without_position :
  forall (w : World) (index : Z) (price : num) (reason : string),
    current_position (self w) = None ->
    fst (close_position index price reason w) = Ok tt
    /\ self (snd (close_position index price reason w)) = self w.
Proof.
  intros w index price reason Hpos.
  unfold close_position; unfold_monad.
  rewrite Hpos; mred. auto.
Qed.

Lemma close_position_without_position_witness :
  fst (close_position 7 (Np 440) "TP" (holding None)) = Ok tt
  /\ self (snd (close_position 7 (Np 440) "TP" (holding None)))
     = self (holding None).
Proof.
  apply (close_position_without_position (holding None) 7 (Np 440) "TP").
  reflexivity.
Defined.

(** ** One position at a time *)

(** C4: in a run of run_backtest, from any state of the object and for any
    signal method, every call of open_position is made while current_position
    is None. *)
Theorem run_backtest_opens_when_flat :
  forall (generate_signal : TechnicalAnalysis -> Z -> result Signal)
         (s : TechnicalAnalysis) (e : Event),
    In e (run_calls generate_signal s) ->
    is_open (ev_call e) = true ->
    ev_held e = None.
Proof.
  intros gs s e Hin Hopen.
  destruct (run_calls_cases gs s) as (segs & tail & _ & Hok & Hend & Hcases).
  destruct (Hcases e Hin) as [Hpass|Htail].
  - destruct (in_pass segs e Hok Hpass) as (i & new & _ & _ & Hev & _).
    now apply Hev.
  - destruct (end_close_call tail e Hend Htail) as (Hno & _).
    congruence.
Qed.

Lemma run_backtest_opens_when_flat_witness :
  In sample_open (run_calls EMA_CrossoverStrategy_generate_signal
                            sample_strategy)
  /\ is_open (ev_call sample_open) = true
  /\ ev_held sample_open = None.
Proof.
  assert (Hin : In sample_open
                   (run_calls EMA_CrossoverStrategy_generate_signal
                              sample_strategy)).
  { vm_compute. do 3 right. left. reflexivity. }
  split; [exact Hin | split; [reflexivity | ]].
  exact (run_backtest_opens_when_flat
           EMA_CrossoverStrategy_generate_signal sample_strategy
           sample_open Hin eq_refl).
Defined.

(** ** Exit and entry exclude each other on a bar *)

(** C6: (1) when the exit check of a bar past the warm-up matches, the whole
    pass of the loop on that bar is that check followed by the close: the
    signal is not evaluated and nothing is opened, and the loop goes on with
    the next bar.  (2) In the calls of a run, a bar index that bears a close
    for a matched exit condition (reason SL or TP) bears no call of
    generate_signal and no call of open_position. *)
Theorem run_backtest_exit_excludes_entry :
  forall generate_signal : TechnicalAnalysis -> Z -> result Signal,
    (forall (i : Z) (w : World) (pos : Position) (price : num)
            (reason : string),
        200 <= i ->
        current_position (self w) = Some pos ->
        fst (check_exit_conditions i w) = Ok (Exit price reason) ->
        loop_body generate_signal i w
        = close_position i price reason (snd (check_exit_conditions i w)))
    /\ (forall (s : TechnicalAnalysis) (c e : Event),
          In c (run_calls generate_signal s) ->
          is_exit_close (ev_call c) = true ->
          In e (run_calls generate_signal s) ->
          call_index (ev_call e) = call_index (ev_call c) ->
          is_signal (ev_call e) = false /\ is_open (ev_call e) = false).
Proof.
  intros gs; split.
  - intros i w pos price reason Hi Hpos Hexit.
    apply Z.ltb_ge in Hi.
    unfold loop_body, exit_step; rewrite Hi.
    unfold_monad; rewrite Hpos; mred.
    destruct (check_exit_conditions i w) as [[x|e] w1]; cbn in Hexit;
      [|discriminate].
    injection Hexit as ->; mred.
    destruct (close_position i price reason w1) as [[[]|e] w2]; reflexivity.
  - intros s c e Hc Hclose He Hidx.
    destruct (run_calls_cases gs s) as (segs & tail & Hnd & Hok & Hend & Hcases).
    destruct (Hcases c Hc) as [Hcp|Hct];
      [|destruct (end_close_call tail c Hend Hct) as (_ & _ & _ & Hno);
        congruence].
    destruct (Hcases e He) as [Hep|Het];
      [|destruct (end_close_call tail e Hend Het) as (Ho & _ & Hs & _);
        split; assumption].
    destruct (in_pass segs c Hok Hcp) as (i & new & Hseg & Hin & Hev & Hex).
    destruct (in_pass segs e Hok Hep) as (j & new' & Hseg' & Hin' & Hev' & _).
    destruct Hev as (Hi & _), Hev' as (Hj & _).
    assert (Hji : j = i) by congruence.
    rewrite Hji in Hseg'.
    assert (new' = new) by exact (pass_unique segs i new' new Hnd Hseg' Hseg).
    subst new'.
    assert (Hsome : existsb (fun x => is_close (ev_call x)) new = true).
    { apply existsb_exists; exists c; split; [assumption|].
      destruct (ev_call c); cbn in *; congruence. }
    apply Hex in Hsome.
    destruct (is_signal (ev_call e) || is_open (ev_call e)) eqn:Hso.
    + assert (existsb (fun x => is_signal (ev_call x) || is_open (ev_call x))
                      new = true)
        by (apply existsb_exists; exists e; auto).
      congruence.
    + apply orb_false_elim in Hso; exact Hso.
Qed.

Lemma run_backtest_exit_excludes_entry_witness :
  loop_body EMA_CrossoverStrategy_generate_signal 203 sample_holding
  = close_position 203 (Np 440) "TP"
      (snd (check_exit_conditions 203 sample_holding))
  /\ In sample_close (run_calls EMA_CrossoverStrategy_generate_signal
                                sample_strategy)
  /\ In sample_check (run_calls EMA_CrossoverStrategy_generate_signal
                                sample_strategy)
  /\ is_signal (ev_call sample_check) = false
  /\ is_open (ev_call sample_check) = false.
Proof.
  destruct (run_backtest_exit_excludes_entry
              EMA_CrossoverStrategy_generate_signal) as [Hpass Hrun].
  assert (Hc : In sample_close
                  (run_calls EMA_CrossoverStrategy_generate_signal
                             sample_strategy)).
  { vm_compute. do 5 right. left. reflexivity. }
  assert (He : In sample_check
                  (run_calls EMA_CrossoverStrategy_generate_signal
                             sample_strategy)).
  { vm_compute. do 4 right. left. reflexivity. }
  split; [|split; [exact Hc | split; [exact He|]]].
  - apply (Hpass 203 sample_holding
                 (mkPosition 202 "long" (Np 400) (Np 380) (Np 440) 202)
                 (Np 440) "TP").
    + lia.
    + reflexivity.
    + vm_compute. reflexivity.
  - exact (Hrun sample_strategy sample_close sample_check
                Hc eq_refl He eq_refl).
Defined.

(** ** Capital *)

(** A run keeps the capital compounded, whatever the state it starts in and
    however it ends. *)
Lemma run_backtest_compounded
    (generate_signal : TechnicalAnalysis -> Z -> result Signal) (w : World) :
  compounded (self w) ->
  compounded (self (snd (run_backtest generate_signal w))).
Proof. apply engine_steps_compounded, run_backtest_steps. Qed.

(** C3: after a run of the backtest on a constructed object, whatever the
    signal method and however the run ends, initial_capital is the value
    given to the constructor and current_capital is initial_capital
    multiplied, trade after trade in order, by (1 + profit_loss_pct / 100). *)
Theorem run_backtest_capital_compounds :
  forall (generate_signal : TechnicalAnalysis -> Z -> result Signal)
         (df : DataFrame) (ic cr : num) (s s' : TechnicalAnalysis),
    __init__ df ic cr = Ok s ->
    s' = self (snd (run_backtest generate_signal (mkWorld s []))) ->
    initial_capital s' = ic
    /\ current_capital s' = fold_left compound (trades s') ic.
Proof.
  intros gs df ic cr s s' Hinit ->.
  pose proof (init_compounded _ _ _ _ Hinit) as Hc0.
  apply init_fresh in Hinit.
  pose proof (run_backtest_steps gs (mkWorld s [])) as Hsteps.
  change (self (mkWorld s [])) with s in Hsteps.
  destruct (engine_steps_frame _ _ Hsteps) as (_ & Hic & _).
  pose proof (engine_steps_compounded _ _ Hsteps Hc0) as Hc.
  unfold compounded in Hc; rewrite Hic in Hc.
  replace (initial_capital s) with ic in * by (subst s; reflexivity).
  auto.
Qed.

Lemma run_backtest_capital_compounds_witness :
  let s' := self (snd (run_backtest EMA_CrossoverStrategy_generate_signal
                                    (mkWorld sample_strategy []))) in
  List.length (trades s') = 1%nat
  /\ initial_capital s' = Py 100
  /\ current_capital s' = fold_left compound (trades s') (Py 100).
Proof.
  split; [vm_compute; reflexivity|].
  apply (run_backtest_capital_compounds
           EMA_CrossoverStrategy_generate_signal
           sample_frame (Py 100) (Py 0.0009765625) sample_strategy);
    reflexivity.
Defined.

(** ** Warm-up *)

(** C5: in a run of run_backtest, for any signal method, (1) every call of
    open_position, of check_exit_conditions and of generate_signal bears a
    bar index of 200 or more, from any state of the object; (2) on a
    constructed object, every trade recorded was entered at the time stamp of
    a bar of index 200 or more. *)
Theorem run_backtest_skips_warmup :
  forall generate_signal : TechnicalAnalysis -> Z -> result Signal,
    (forall (s : TechnicalAnalysis) (e : Event),
        In e (run_calls generate_signal s) ->
        is_open (ev_call e) || is_check (ev_call e) || is_signal (ev_call e)
        = true ->
        200 <= call_index (ev_call e))
    /\ (forall (df : DataFrame) (ic cr : num) (s : TechnicalAnalysis)
               (t : Trade),
          __init__ df ic cr = Ok s ->
          In t (trades (self (snd (run_backtest generate_signal
                                                (mkWorld s []))))) ->
          after_warmup df (entry_time t)).
Proof.
  intros gs; split.
  - intros s e Hin Hkind.
    destruct (run_calls_cases gs s) as (segs & tail & _ & Hok & Hend & Hcases).
    destruct (Hcases e Hin) as [Hpass|Htail].
    + destruct (in_pass segs e Hok Hpass) as (i & new & _ & _ & Hev & _).
      destruct Hev as (Hi & Hwarm & _); lia.
    + destruct (end_close_call tail e Hend Htail) as (Ho & Hc & Hs & _).
      rewrite Ho, Hc, Hs in Hkind; discriminate.
  - intros df ic cr s t Hinit Hin.
    apply init_fresh in Hinit.
    pose proof (run_backtest_steps gs (mkWorld s [])) as Hsteps.
    change (self (mkWorld s [])) with s in Hsteps.
    destruct (engine_steps_frame _ _ Hsteps) as (Hdata & _).
    assert (Hfresh : entered_after_warmup s).
    { subst s; split; cbn; [discriminate | constructor]. }
    destruct (engine_steps_warmup _ _ Hsteps Hfresh) as [_ Htr].
    rewrite Forall_forall in Htr.
    specialize (Htr t Hin); rewrite Hdata in Htr.
    replace (data s) with df in Htr by (subst s; reflexivity).
    exact Htr.
Qed.

Lemma run_backtest_skips_warmup_witness :
  In sample_open (run_calls EMA_CrossoverStrategy_generate_signal
                            sample_strategy)
  /\ 200 <= call_index (ev_call sample_open)
  /\ Forall (fun t => after_warmup sample_frame (entry_time t))
            (trades (self (snd (run_backtest
                                  EMA_CrossoverStrategy_generate_signal
                                  (mkWorld sample_strategy []))))).
Proof.
  destruct (run_backtest_skips_warmup EMA_CrossoverStrategy_generate_signal)
    as [Hcalls Htrades].
  assert (Hin : In sample_open
                   (run_calls EMA_CrossoverStrategy_generate_signal
                              sample_strategy)).
  { vm_compute. do 3 right. left. reflexivity. }
  split; [exact Hin | split].
  - exact (Hcalls sample_strategy sample_open Hin eq_refl).
  - apply Forall_forall; intros t Ht.
    exact (Htrades sample_frame (Py 100) (Py 0.0009765625) sample_strategy t
                   eq_refl Ht).
Defined.

(** ** Configuration *)

Lemma iloc_first (df : DataFrame) :
  df <> [] -> exists row, iloc df 0 = Ok row.
Proof.
  destruct df as [|row df]; [easy|]; intros _.
  exists row; unfold iloc.
  replace (0 <? Z.of_nat (List.length (row :: df))) with true
    by (symmetry; apply Z.ltb_lt; cbn [List.length]; lia).
  reflexivity.
Qed.

Lemma iloc_last (df : DataFrame) :
  df <> [] -> exists row, iloc df (-1) = Ok row.
Proof.
  intros Hne; unfold iloc.
  assert (Hlen : (0 < List.length df)%nat)
    by (destruct df; [easy | cbn; lia]).
  replace (- Z.of_nat (List.length df) <=? -1) with true
    by (symmetry; apply Z.leb_le; lia).
  cbn [Z.leb Z.ltb Z.compare andb].
  destruct (nth_error df (Z.to_nat (Z.of_nat (List.length df) + -1)))
    as [row|] eqn:Hnth; [eauto|].
  apply nth_error_None in Hnth; lia.
Qed.

(** C7, as the code has it: the constructor checks nothing, it stores any
    initial_capital and any commission_rate and returns the object; a run on
    a constructed object whose series is not empty and has at most 200 bars
    returns normally, calls no method and leaves the object as constructed:
    no trade, the capital at its initial value. *)
Theorem configuration_is_not_checked :
  forall (generate_signal : TechnicalAnalysis -> Z -> result Signal)
         (df : DataFrame) (ic cr : num),
    __init__ df ic cr = Ok (mkTA df ic ic cr [] None)
    /\ (df <> [] ->
        (List.length df <= 200)%nat ->
        run_backtest generate_signal (mkWorld (mkTA df ic ic cr [] None) [])
        = (Ok tt, mkWorld (mkTA df ic ic cr [] None) [])).
Proof.
  intros gs df ic cr; split; [reflexivity|].
  intros Hne Hlen.
  destruct (iloc_first df Hne) as (r0 & H0).
  destruct (iloc_last df Hne) as (r1 & H1).
  unfold run_backtest; unfold_monad.
  rewrite H0; mred; rewrite H1; mred.
  rewrite for_each_warmup; [reflexivity|].
  unfold range; eapply Forall_impl; [|apply range_below].
  cbn; intros; lia.
Qed.

Lemma configuration_is_not_checked_witness :
  __init__ three_bars (Py (-1)) (Py (-0.5))
  = Ok (mkTA three_bars (Py (-1)) (Py (-1)) (Py (-0.5)) [] None)
  /\ run_backtest base_generate_signal
       (mkWorld (mkTA three_bars (Py (-1)) (Py (-1)) (Py (-0.5)) [] None) [])
     = (Ok tt,
        mkWorld (mkTA three_bars (Py (-1)) (Py (-1)) (Py (-0.5)) [] None) []).
Proof.
  destruct (configuration_is_not_checked
              base_generate_signal three_bars (Py (-1)) (Py (-0.5)))
    as [Hinit Hrun].
  split; [exact Hinit|].
  apply Hrun.
  - discriminate.
  - cbn; lia.
Defined.

(** A run on an empty series stops at the header, on the read of the first
    row. *)
Lemma run_backtest_empty_frame
    (generate_signal : TechnicalAnalysis -> Z -> result Signal)
    (ic cr : num) :
  run_backtest generate_signal (mkWorld (mkTA [] ic ic cr [] None) [])
  = (Raise IndexError, mkWorld (mkTA [] ic ic cr [] None) []).
Proof. reflexivity. Qed.

(** Without a strategy the first bar past the warm-up raises. *)
Lemma run_backtest_without_strategy :
  fst (run_backtest base_generate_signal (mkWorld sample_strategy []))
  = Raise NotImplementedError.
Proof. vm_compute; reflexivity. Qed.

(** C7 does not hold: a capital of -1, a commission rate of -0.5 and a
    series of three bars, shorter than the warm-up, are accepted; the
    constructor returns the object and the run returns normally. *)
Lemma bad_configuration_is_accepted :
  (Py (-1) <=? Py 0)%num = true
  /\ (Py (-0.5) <? Py 0)%num = true
  /\ (List.length three_bars < 200)%nat
  /\ __init__ three_bars (Py (-1)) (Py (-0.5))
     = Ok (mkTA three_bars (Py (-1)) (Py (-1)) (Py (-0.5)) [] None)
  /\ fst (run_backtest base_generate_signal
            (mkWorld (mkTA three_bars (Py (-1)) (Py (-1)) (Py (-0.5)) []
                           None) []))
     = Ok tt.
Proof.
  repeat split; try reflexivity. cbn; lia.
Qed.

(** ** The oscillator *)

Open Scope float_scope.

(** A zero average loss under a positive average gain: the value is 100. *)
Lemma rsi_value_saturates (avg_gain avg_loss : float) :
  (avg_loss =? 0) = true ->
  (0 <? avg_gain) = true ->
  rsi_value avg_gain avg_loss = 100.
Proof.
  intros Hl Hg.
  destruct (float_is_zero _ Hl) as (sl & Hsl).
  apply Prim2SF_inj; unfold rsi_value.
  rewrite sub_spec, div_spec, add_spec, div_spec, Hsl.
  destruct (float_is_positive _ Hg) as [Hsg|(m & e & Hsg)]; rewrite Hsg;
    destruct sl; vm_compute; reflexivity.
Qed.

(** A zero average loss under a zero average gain: the value is NaN. *)
Lemma rsi_value_undefined (avg_gain avg_loss : float) :
  (avg_loss =? 0) = true ->
  (avg_gain =? 0) = true ->
  rsi_value avg_gain avg_loss = nan.
Proof.
  intros Hl Hg.
  destruct (float_is_zero _ Hl) as (sl & Hsl).
  destruct (float_is_zero _ Hg) as (sg & Hsg).
  apply Prim2SF_inj; unfold rsi_value.
  rewrite sub_spec, div_spec, add_spec, div_spec, Hsl, Hsg.
  destruct sl, sg; vm_compute; reflexivity.
Qed.

Close Scope float_scope.

Lemma nth_error_zip_with (op : float -> float -> float)
    (xs ys : list float) (i : nat) (x y : float) :
  nth_error xs i = Some x ->
  nth_error ys i = Some y ->
  nth_error (zip_with op xs ys) i = Some (op x y).
Proof.
  revert ys i; induction xs as [|x0 xs IH]; intros [|y0 ys] [|i]; cbn;
    try discriminate.
  - now intros [= ->] [= ->].
  - apply IH.
Qed.

Lemma diff_length (xs : list float) :
  List.length (diff xs) = List.length xs.
Proof.
  destruct xs as [|x0 xs]; [reflexivity|]; cbn; f_equal.
  revert x0; induction xs; intros x0; cbn; auto.
Qed.

Lemma ewm_mean_length (alpha : float) (xs : list float) :
  List.length (ewm_mean alpha xs) = List.length xs.
Proof.
  destruct xs as [|x0 xs]; [reflexivity|]; cbn; f_equal.
  revert x0; induction xs; intros x0; cbn; auto.
Qed.

Lemma zip_with_length (op : float -> float -> float) (xs ys : list float) :
  List.length xs = List.length ys ->
  List.length (zip_with op xs ys) = List.length xs.
Proof.
  revert ys; induction xs; intros [|y ys]; cbn; try discriminate; auto.
Qed.

(** C8, as the code has it: calculate_rsi raises no ZeroDivisionError, and on
    a price column with a period of one or more it returns a series as long
    as the prices; at an index where the smoothed average loss is zero, the
    result is 100 when the smoothed average gain is positive, and NaN when it
    is zero as well. *)
Theorem calculate_rsi_zero_loss :
  forall (s : TechnicalAnalysis) (period : Z) (price_column : string),
    calculate_rsi s period price_column <> Raise ZeroDivisionError
    /\ (forall prices : list float,
          column (data s) price_column = Ok prices ->
          1 <= period ->
          exists rsi : list float,
            calculate_rsi s period price_column = Ok rsi
            /\ List.length rsi = List.length prices)
    /\ forall (avg_gain avg_loss : list float) (i : nat) (g l : float),
         rsi_averages s period price_column = Ok (avg_gain, avg_loss) ->
         nth_error avg_gain i = Some g ->
         nth_error avg_loss i = Some l ->
         PrimFloat.eqb l 0 = true ->
         (PrimFloat.ltb 0 g = true ->
          series_nth (calculate_rsi s period price_column) i
          = Some 100%float)
         /\ (PrimFloat.eqb g 0 = true ->
             series_nth (calculate_rsi s period price_column) i = Some nan).
Proof.
  intros s period col; split; [|split].
  - unfold calculate_rsi, rsi_averages, column, ewm_alpha, rbind.
    repeat break_match; discriminate.
  - intros prices Hcol Hperiod.
    unfold calculate_rsi, rsi_averages, ewm_alpha; rewrite Hcol.
    apply Z.ltb_ge in Hperiod; rewrite Hperiod; cbn [rbind fst snd].
    eexists; split; [reflexivity|].
    rewrite length_map, zip_with_length;
      rewrite !ewm_mean_length, !length_map, ?diff_length; reflexivity.
  - intros ag al i g l Havg Hg Hl Hzero.
    unfold calculate_rsi; rewrite Havg; cbn [rbind fst snd series_nth].
    rewrite (nth_error_map _ i), (nth_error_zip_with _ _ _ _ _ _ Hg Hl).
    cbn [option_map]; split; intros Hgain.
    + f_equal; now apply rsi_value_saturates.
    + f_equal; now apply rsi_value_undefined.
Qed.

Lemma calculate_rsi_zero_loss_witness :
  (exists rsi : list float,
      calculate_rsi three_bar_analysis 14 "close" = Ok rsi
      /\ List.length rsi = 3%nat)
  /\ series_nth (avg_loss_series three_bar_analysis 14 "close") 2
     = Some neg_zero
  /\ series_nth (calculate_rsi three_bar_analysis 14 "close") 2
     = Some 100%float.
Proof.
  destruct (calculate_rsi_zero_loss three_bar_analysis 14 "close")
    as (_ & Hreturns & Hzero).
  split; [|split].
  - apply (Hreturns [400; 400; 410]%float); [reflexivity | lia].
  - vm_compute; reflexivity.
  - eapply Hzero.
    + vm_compute; reflexivity.
    + vm_compute; reflexivity.
    + vm_compute; reflexivity.
    + vm_compute; reflexivity.
    + vm_compute; reflexivity.
Defined.

(** C8 does not hold: on closes 400, 400, 410 the smoothed average loss at
    index 1 is zero (the price did not move, the average gain is zero too)
    and the result there is NaN, not 100; calculate_rsi returns normally. *)
Lemma calculate_rsi_zero_loss_not_saturated :
  series_nth (avg_loss_series three_bar_analysis 14 "close") 1
  = Some neg_zero
  /\ PrimFloat.eqb neg_zero 0 = true
  /\ series_nth (calculate_rsi three_bar_analysis 14 "close") 1 = Some nan
  /\ nan <> 100%float.
Proof.
  repeat split; try (vm_compute; reflexivity).
  exact nan_is_not_100.
Qed.

(** The first value of the oscillator is NaN on every series: the first
    difference is missing, so both averages start at zero. *)
Lemma calculate_rsi_starts_with_nan (s : TechnicalAnalysis) (period : Z)
    (price_column : string) (rsi : list float) :
  calculate_rsi s period price_column = Ok rsi ->
  data s <> [] ->
  nth_error rsi 0 = Some nan.
Proof.
  unfold calculate_rsi, rsi_averages, column, rbind.
  destruct (data s) as [|row df]; [easy|].
  repeat break_match; try discriminate;
    intros H _; injection H as <-; reflexivity.
Qed.

(** ** Statistics *)

(** C9: with no trade, calculate_statistics returns, without raising, the
    counts 0, every metric 0 and final_capital equal to initial_capital;
    and whenever it returns for an object whose total loss is zero, with
    trades or without, profit_factor is 0. *)
Theorem calculate_statistics_defaults :
  forall s : TechnicalAnalysis,
    (trades s = [] ->
     calculate_statistics s
     = Ok (mkStatistics 0 0 0 (Py 0) (Py 0) (Py 0) (Py 0) (Py 0) (Py 0)
                        (Py 0) (Py 0) (initial_capital s)))
    /\ (forall st : Statistics,
          calculate_statistics s = Ok st ->
          PrimFloat.eqb (val (total_loss_of (trades s))) 0 = true ->
          profit_factor st = Py 0).
Proof.
  intros s; split.
  - intros Hnone; unfold calculate_statistics; rewrite Hnone; reflexivity.
  - intros st Hst Hzero.
    unfold calculate_statistics in Hst.
    destruct (trades s) as [|t ts] eqn:Hts.
    + injection Hst as <-; reflexivity.
    + rewrite (num_gtb_zero _ Hzero) in Hst.
      unfold rbind in Hst.
      repeat match type of Hst with
             | match ?x with _ => _ end = _ =>
               destruct x; try discriminate
             end;
        injection Hst as <-; reflexivity.
Qed.

Lemma calculate_statistics_defaults_witness :
  calculate_statistics three_bar_analysis
  = Ok (mkStatistics 0 0 0 (Py 0) (Py 0) (Py 0) (Py 0) (Py 0) (Py 0)
                     (Py 0) (Py 0) (Py 100))
  /\ exists st : Statistics,
       calculate_statistics sample_result = Ok st
       /\ total_trades st = 1%nat
       /\ profit_factor st = Py 0.
Proof.
  split.
  - apply (calculate_statistics_defaults three_bar_analysis); reflexivity.
  - destruct (calculate_statistics sample_result) as [st|e] eqn:Hst.
    + exists st; split; [reflexivity|]; split.
      * vm_compute in Hst; injection Hst as <-; reflexivity.
      * apply (proj2 (calculate_statistics_defaults sample_result) st Hst).
        vm_compute; reflexivity.
    + vm_compute in Hst; discriminate.
Defined.

(** * Further properties *)

(** ** Binary64 comparisons *)

Lemma SFcompare_antisym (x y : spec_float) :
  SFcompare y x = option_map CompOpp (SFcompare x y).
Proof.
  destruct x as [sx|sx| |sx mx ex], y as [sy|sy| |sy my ey]; cbn;
    try reflexivity;
    try (destruct sx; reflexivity);
    try (destruct sy; reflexivity);
    try (destruct sx, sy; reflexivity).
  pose proof (Pos.compare_cont_antisym mx my Eq) as Hm; cbn in Hm.
  destruct sx, sy; try reflexivity; cbn;
    rewrite (Z.compare_antisym ex ey);
    destruct (ex ?= ey); cbn; try reflexivity;
    rewrite <- Hm; try reflexivity;
    now rewrite CompOpp_involutive.
Qed.

Lemma ltb_asym (x y : float) :
  PrimFloat.ltb x y = true -> PrimFloat.ltb y x = false.
Proof.
  rewrite !FloatAxioms.ltb_spec; unfold SFltb.
  rewrite (SFcompare_antisym (Prim2SF x) (Prim2SF y)).
  destruct (SFcompare (Prim2SF x) (Prim2SF y)) as [[]|]; cbn; congruence.
Qed.

Lemma ltb_not_leb (x y : float) :
  PrimFloat.ltb x y = true -> PrimFloat.leb y x = false.
Proof.
  rewrite FloatAxioms.ltb_spec, FloatAxioms.leb_spec; unfold SFltb, SFleb.
  rewrite (SFcompare_antisym (Prim2SF x) (Prim2SF y)).
  destruct (SFcompare (Prim2SF x) (Prim2SF y)) as [[]|]; cbn; congruence.
Qed.

(** ** Candle patterns *)

Lemma series_shift_length (xs : list float) :
  List.length (series_shift xs) = List.length xs.
Proof.
  unfold series_shift; rewrite length_firstn; cbn [List.length]; lia.
Qed.

Lemma series_shift_first (xs : list float) :
  xs <> [] -> nth_error (series_shift xs) 0 = Some nan.
Proof. destruct xs; [easy | reflexivity]. Qed.

Lemma series_shift_next (xs : list float) (i : nat) (y : float) :
  nth_error xs (S i) = Some y ->
  nth_error (series_shift xs) (S i) = nth_error xs i.
Proof.
  intros Hy; unfold series_shift; rewrite nth_error_firstn.
  assert (Hlt : (S i < List.length xs)%nat)
    by (apply nth_error_Some; congruence).
  apply Nat.ltb_lt in Hlt; rewrite Hlt; reflexivity.
Qed.

Lemma compare_series_length (op : float -> float -> bool)
    (xs ys : list float) :
  List.length xs = List.length ys ->
  List.length (compare_series op xs ys) = List.length xs.
Proof.
  revert ys; induction xs; intros [|y ys]; cbn; try discriminate; auto.
Qed.

Lemma and_series_length (xs ys : list bool) :
  List.length xs = List.length ys ->
  List.length (and_series xs ys) = List.length xs.
Proof.
  revert ys; induction xs; intros [|y ys]; cbn; try discriminate; auto.
Qed.

Lemma nth_error_compare_series (op : float -> float -> bool)
    (xs ys : list float) (i : nat) (x y : float) :
  nth_error xs i = Some x ->
  nth_error ys i = Some y ->
  nth_error (compare_series op xs ys) i = Some (op x y).
Proof.
  revert ys i; induction xs as [|x0 xs IH]; intros [|y0 ys] [|i]; cbn;
    try discriminate.
  - now intros [= ->] [= ->].
  - apply IH.
Qed.

Lemma nth_error_and_series (xs ys : list bool) (i : nat) (x y : bool) :
  nth_error xs i = Some x ->
  nth_error ys i = Some y ->
  nth_error (and_series xs ys) i = Some (x && y).
Proof.
  revert ys i; induction xs as [|x0 xs IH]; intros [|y0 ys] [|i]; cbn;
    try discriminate.
  - now intros [= ->] [= ->].
  - apply IH.
Qed.

Lemma detect_bullish_engulfing_length (s : TechnicalAnalysis) :
  List.length (detect_bullish_engulfing s) = List.length (data s).
Proof.
  unfold detect_bullish_engulfing.
  repeat first
    [ rewrite and_series_length
    | rewrite compare_series_length
    | rewrite series_shift_length
    | rewrite length_map ];
    reflexivity.
Qed.

Lemma detect_bearish_engulfing_length (s : TechnicalAnalysis) :
  List.length (detect_bearish_engulfing s) = List.length (data s).
Proof.
  unfold detect_bearish_engulfing.
  repeat first
    [ rewrite and_series_length
    | rewrite compare_series_length
    | rewrite series_shift_length
    | rewrite length_map ];
    reflexivity.
Qed.

(** The value of a column of the frame at the position of a row. *)
Lemma nth_error_column (f : Bar -> float) (df : DataFrame) (i : nat)
    (row : Bar) :
  nth_error df i = Some row -> nth_error (map f df) i = Some (f row).
Proof. intros H; rewrite nth_error_map, H; reflexivity. Qed.

Lemma nth_error_shifted_column (f : Bar -> float) (df : DataFrame) (i : nat)
    (prev cur : Bar) :
  nth_error df i = Some prev ->
  nth_error df (S i) = Some cur ->
  nth_error (series_shift (map f df)) (S i) = Some (f prev).
Proof.
  intros Hprev Hcur.
  rewrite (series_shift_next _ _ (f cur)) by now apply nth_error_column.
  now apply nth_error_column.
Qed.

Lemma detect_engulfing_first (s : TechnicalAnalysis) :
  data s <> [] ->
  nth_error (detect_bullish_engulfing s) 0 = Some false
  /\ nth_error (detect_bearish_engulfing s) 0 = Some false.
Proof.
  intros Hne; destruct (data s) as [|row df] eqn:Hdata; [easy|].
  unfold detect_bullish_engulfing, detect_bearish_engulfing;
    rewrite Hdata; cbn; auto.
Qed.

Lemma detect_engulfing_next (s : TechnicalAnalysis) (i : nat)
    (prev cur : Bar) :
  nth_error (data s) i = Some prev ->
  nth_error (data s) (S i) = Some cur ->
  nth_error (detect_bullish_engulfing s) (S i) = Some (bullish_pair prev cur)
  /\ nth_error (detect_bearish_engulfing s) (S i)
     = Some (bearish_pair prev cur).
Proof.
  intros Hprev Hcur.
  unfold detect_bullish_engulfing, detect_bearish_engulfing,
    bullish_pair, bearish_pair.
  pose proof (nth_error_column bar_open _ _ _ Hcur) as Hopen.
  pose proof (nth_error_column bar_close _ _ _ Hcur) as Hclose.
  pose proof (nth_error_shifted_column bar_open _ _ _ _ Hprev Hcur)
    as Hpopen.
  pose proof (nth_error_shifted_column bar_close _ _ _ _ Hprev Hcur)
    as Hpclose.
  split;
    repeat first
      [ apply nth_error_and_series
      | apply nth_error_compare_series ];
    assumption.
Qed.

(** X1: both pattern detectors return one flag per candle; the flag of the
    first candle is False; the flag of any later candle is the conjunction
    the docstring lists, taken on that candle and the one before it (for the
    bullish pattern: previous close < previous open, close > open,
    open <= previous close and close >= previous open; the bearish pattern is
    the mirror image). *)
Theorem detect_engulfing_flags :
  forall s : TechnicalAnalysis,
    List.length (detect_bullish_engulfing s) = List.length (data s)
    /\ List.length (detect_bearish_engulfing s) = List.length (data s)
    /\ (data s <> [] ->
        nth_error (detect_bullish_engulfing s) 0 = Some false
        /\ nth_error (detect_bearish_engulfing s) 0 = Some false)
    /\ (forall (i : nat) (prev cur : Bar),
          nth_error (data s) i = Some prev ->
          nth_error (data s) (S i) = Some cur ->
          nth_error (detect_bullish_engulfing s) (S i)
          = Some (bullish_pair prev cur)
          /\ nth_error (detect_bearish_engulfing s) (S i)
             = Some (bearish_pair prev cur)).
Proof.
  intros s; split; [apply detect_bullish_engulfing_length|].
  split; [apply detect_bearish_engulfing_length|].
  split; [apply detect_engulfing_first|].
  intros i prev cur; apply detect_engulfing_next.
Qed.

Lemma detect_engulfing_flags_witness :
  nth_error (detect_bullish_engulfing engulfing_analysis) 0 = Some false
  /\ nth_error (detect_bullish_engulfing engulfing_analysis) 1 = Some true
  /\ nth_error (detect_bearish_engulfing engulfing_analysis) 1 = Some false.
Proof.
  destruct (detect_engulfing_flags engulfing_analysis)
    as (_ & _ & Hfirst & Hnext).
  split; [apply Hfirst; discriminate|].
  destruct (Hnext 0%nat (mkBar 0 10 11 7 8 0) (mkBar 1 7 12 6 11 0)
                  eq_refl eq_refl) as [Hbull Hbear].
  split; [exact Hbull | exact Hbear].
Defined.

(** X2: no candle is flagged by both detectors: where the bullish pattern is
    found the bearish one is not. *)
Theorem engulfing_patterns_exclude :
  forall (s : TechnicalAnalysis) (i : nat),
    nth_error (detect_bullish_engulfing s) i = Some true ->
    nth_error (detect_bearish_engulfing s) i = Some false.
Proof.
  intros s i Hbull.
  pose proof (detect_bullish_engulfing_length s) as Hlen.
  pose proof (detect_engulfing_first s) as Hfirst.
  pose proof (detect_engulfing_next s) as Hnext.
  assert (Hi : (i < List.length (data s))%nat).
  { rewrite <- Hlen; apply nth_error_Some; congruence. }
  destruct i as [|i].
  - destruct (data s) as [|row df] eqn:Hdata; [cbn in Hi; lia|].
    destruct Hfirst as [Hb _]; [discriminate | congruence].
  - destruct (nth_error (data s) i) as [prev|] eqn:Hprev;
      [|apply nth_error_None in Hprev; lia].
    destruct (nth_error (data s) (S i)) as [cur|] eqn:Hcur;
      [|apply nth_error_None in Hcur; lia].
    destruct (Hnext i prev cur Hprev Hcur) as [Hb Hbear].
    rewrite Hbear; f_equal.
    rewrite Hb in Hbull; injection Hbull as Hpair.
    unfold bullish_pair in Hpair; unfold bearish_pair.
    apply andb_prop in Hpair as [Hpair _].
    apply andb_prop in Hpair as [_ Hrise].
    now rewrite (ltb_asym _ _ Hrise), andb_false_r.
Qed.

Lemma engulfing_patterns_exclude_witness :
  nth_error (detect_bullish_engulfing engulfing_analysis) 1 = Some true
  /\ nth_error (detect_bearish_engulfing engulfing_analysis) 1 = Some false.
Proof.
  assert (H : nth_error (detect_bullish_engulfing engulfing_analysis) 1
              = Some true) by reflexivity.
  split; [exact H|].
  exact (engulfing_patterns_exclude engulfing_analysis 1 H).
Defined.

(** ** Moving average and oscillator *)

Lemma column_app (df later : DataFrame) (price_column : string)
    (prices : list float) :
  column df price_column = Ok prices ->
  exists more : list float,
    column later price_column = Ok more
    /\ column (df ++ later) price_column = Ok (prices ++ more).
Proof.
  unfold column; repeat break_match; try discriminate;
    intros [= <-]; eexists; split; try reflexivity; now rewrite map_app.
Qed.

Lemma ewm_from_app (alpha prev : float) (xs ys : list float) :
  exists rest : list float,
    ewm_from alpha prev (xs ++ ys) = ewm_from alpha prev xs ++ rest.
Proof.
  revert prev; induction xs as [|x xs IH]; intros prev; cbn; [eauto|].
  destruct (IH (alpha * x + (1 - alpha) * prev)%float) as (rest & ->).
  eauto.
Qed.

Lemma ewm_mean_app (alpha : float) (xs ys : list float) :
  exists rest : list float,
    ewm_mean alpha (xs ++ ys) = ewm_mean alpha xs ++ rest.
Proof.
  destruct xs as [|x xs]; cbn; [eauto|].
  destruct (ewm_from_app alpha x xs ys) as (rest & ->); eauto.
Qed.

Lemma diff_from_app (prev : float) (xs ys : list float) :
  exists rest : list float,
    diff_from prev (xs ++ ys) = diff_from prev xs ++ rest.
Proof.
  revert prev; induction xs as [|x xs IH]; intros prev; cbn; [eauto|].
  destruct (IH x) as (rest & ->); eauto.
Qed.

Lemma diff_app (xs ys : list float) :
  exists rest : list float, diff (xs ++ ys) = diff xs ++ rest.
Proof.
  destruct xs as [|x xs]; cbn; [eauto|].
  destruct (diff_from_app x xs ys) as (rest & ->); eauto.
Qed.

Lemma zip_with_app (op : float -> float -> float)
    (xs ys xs' ys' : list float) :
  List.length xs = List.length ys ->
  zip_with op (xs ++ xs') (ys ++ ys')
  = zip_with op xs ys ++ zip_with op xs' ys'.
Proof.
  revert ys; induction xs as [|x xs IH]; intros [|y ys]; cbn;
    try discriminate; [reflexivity|].
  intros [= Hlen]; now rewrite IH.
Qed.



(** X4: the moving average looks at no later bar: when bars are appended to
    the data frame, the average computed before is the beginning of the
    average computed after. *)
Theorem calculate_ema_no_lookahead :
  forall (s s' : TechnicalAnalysis) (later : DataFrame) (period : Z)
         (price_column : string) (ema : list float),
    data s' = data s ++ later ->
    calculate_ema s period price_column = Ok ema ->
    exists rest : list float,
      calculate_ema s' period price_column = Ok (ema ++ rest).
Proof.
  intros s s' later period col ema Hdata.
  unfold calculate_ema; rewrite Hdata.
  destruct (column (data s) col) as [prices|e] eqn:Hcol; [|discriminate].
  destruct (column_app _ later _ _ Hcol) as (more & _ & ->); cbn [rbind].
  destruct (ewm_alpha period) as [alpha|e]; [|discriminate]; cbn [rbind].
  intros [= <-].
  destruct (ewm_mean_app alpha prices more) as (rest & ->); eauto.
Qed.

(** X5: the oscillator looks at no later bar either. *)
Theorem calculate_rsi_no_lookahead :
  forall (s s' : TechnicalAnalysis) (later : DataFrame) (period : Z)
         (price_column : string) (rsi : list float),
    data s' = data s ++ later ->
    calculate_rsi s period price_column = Ok rsi ->
    exists rest : list float,
      calculate_rsi s' period price_column = Ok (rsi ++ rest).
Proof.
  intros s s' later period col rsi Hdata.
  unfold calculate_rsi, rsi_averages; rewrite Hdata.
  destruct (column (data s) col) as [prices|e] eqn:Hcol; [|discriminate].
  destruct (column_app _ later _ _ Hcol) as (more & _ & ->); cbn [rbind].
  destruct (ewm_alpha period) as [alpha|e]; [|discriminate];
    cbn [rbind fst snd].
  intros [= <-].
  destruct (diff_app prices more) as (drest & ->).
  rewrite !map_app.
  match goal with
  | |- context [ewm_mean alpha (?g ++ ?g')] =>
    destruct (ewm_mean_app alpha g g') as (grest & ->)
  end.
  match goal with
  | |- context [ewm_mean alpha (?l ++ ?l')] =>
    destruct (ewm_mean_app alpha l l') as (lrest & ->)
  end.
  rewrite zip_with_app, map_app by now rewrite !ewm_mean_length, !length_map.
  eauto.
Qed.

Lemma calculate_ema_no_lookahead_witness :
  exists ema rest : list float,
    calculate_ema three_bar_analysis 25 "close" = Ok ema
    /\ calculate_ema four_bar_analysis 25 "close" = Ok (ema ++ rest).
Proof.
  destruct (calculate_ema three_bar_analysis 25 "close") as [ema|e] eqn:Hema;
    [|vm_compute in Hema; discriminate].
  destruct (calculate_ema_no_lookahead
              three_bar_analysis four_bar_analysis
              [mkBar 3 410 420 405 415 0] 25 "close" ema eq_refl Hema)
    as (rest & Hrest).
  exists ema, rest; auto.
Defined.

Lemma calculate_rsi_no_lookahead_witness :
  exists rsi rest : list float,
    calculate_rsi three_bar_analysis 14 "close" = Ok rsi
    /\ calculate_rsi four_bar_analysis 14 "close" = Ok (rsi ++ rest).
Proof.
  destruct (calculate_rsi three_bar_analysis 14 "close") as [rsi|e] eqn:Hrsi;
    [|vm_compute in Hrsi; discriminate].
  destruct (calculate_rsi_no_lookahead
              three_bar_analysis four_bar_analysis
              [mkBar 3 410 420 405 415 0] 14 "close" rsi eq_refl Hrsi)
    as (rest & Hrest).
  exists rsi, rest; auto.
Defined.

(** ** The crossover signal *)

Lemma iloc_in_range (df : DataFrame) (i : Z) :
  0 <= i < Z.of_nat (List.length df) ->
  exists row : Bar, iloc df i = Ok row.
Proof.
  intros [Hlo Hhi]; unfold iloc.
  apply Z.leb_le in Hlo; apply Z.ltb_lt in Hhi as Hhi'.
  rewrite Hlo, Hhi'; cbn [andb].
  destruct (nth_error df (Z.to_nat i)) as [row|] eqn:Hnth; [eauto|].
  apply nth_error_None in Hnth; lia.
Qed.

Lemma iloc_nonneg (df : DataFrame) (i : Z) (row : Bar) :
  0 <= i ->
  iloc df i = Ok row ->
  i < Z.of_nat (List.length df) /\ nth_error df (Z.to_nat i) = Some row.
Proof.
  intros Hlo; unfold iloc.
  apply Z.leb_le in Hlo as Hlo'; rewrite Hlo'; cbn [andb].
  destruct (i <? Z.of_nat (List.length df)) eqn:Hhi.
  - apply Z.ltb_lt in Hhi.
    destruct (nth_error df (Z.to_nat i)); [|discriminate].
    intros [= ->]; auto.
  - replace (i <? 0) with false by (symmetry; apply Z.ltb_ge; lia).
    rewrite andb_false_r; discriminate.
Qed.

Lemma iloc_app (df later : DataFrame) (i : Z) (row : Bar) :
  0 <= i ->
  iloc df i = Ok row ->
  iloc (df ++ later) i = Ok row.
Proof.
  intros Hlo Hrow.
  destruct (iloc_nonneg df i row Hlo Hrow) as [Hhi Hnth].
  unfold iloc; rewrite length_app.
  replace (0 <=? i) with true by (symmetry; apply Z.leb_le; lia).
  replace (i <? Z.of_nat (List.length df + List.length later)) with true
    by (symmetry; apply Z.ltb_lt; lia).
  cbn [andb]; rewrite nth_error_app1 by lia.
  now rewrite Hnth.
Qed.

Lemma series_at_in_range (xs : list float) (i : Z) :
  0 <= i < Z.of_nat (List.length xs) ->
  exists x : float, series_at xs i = Ok (Np x).
Proof.
  intros Hi; unfold series_at.
  destruct (nth_error xs (Z.to_nat i)) as [x|] eqn:Hnth; [eauto|].
  apply nth_error_None in Hnth; lia.
Qed.

Lemma series_at_app (xs rest : list float) (i : Z) :
  0 <= i < Z.of_nat (List.length xs) ->
  series_at (xs ++ rest) i = series_at xs i.
Proof.
  intros Hi; unfold series_at; now rewrite nth_error_app1 by lia.
Qed.

(** The average of the closes, for a period of one or more. *)
Lemma calculate_ema_close (period : Z) :
  1 <= period ->
  exists alpha : float,
    forall s : TechnicalAnalysis,
      calculate_ema s period "close"
      = Ok (ewm_mean alpha (map bar_close (data s))).
Proof.
  intros Hperiod; unfold calculate_ema, ewm_alpha.
  apply Z.ltb_ge in Hperiod; rewrite Hperiod.
  eexists; intros s; reflexivity.
Qed.

Lemma generate_signal_on_row (s : TechnicalAnalysis) (index : Z) (row : Bar) :
  iloc (data s) index = Ok row ->
  EMA_CrossoverStrategy_generate_signal s index = Ok NoSignal
  \/ EMA_CrossoverStrategy_generate_signal s index = Ok (long_entry row)
  \/ EMA_CrossoverStrategy_generate_signal s index = Ok (short_entry row).
Proof.
  intros Hrow; unfold EMA_CrossoverStrategy_generate_signal.
  destruct (index <? 1) eqn:Hindex; [auto|].
  apply Z.ltb_ge in Hindex.
  destruct (iloc_nonneg (data s) index row ltac:(lia) Hrow) as [Hhi _].
  destruct (iloc_in_range (data s) (index - 1) ltac:(lia)) as (previous & Hprev).
  rewrite Hrow, Hprev; cbn [rbind].
  destruct (calculate_ema_close 25 ltac:(lia)) as (a25 & ->).
  destruct (calculate_ema_close 50 ltac:(lia)) as (a50 & ->).
  destruct (calculate_ema_close 200 ltac:(lia)) as (a200 & ->).
  cbn [rbind].
  repeat match goal with
         | |- context [series_at (ewm_mean ?a ?xs) ?i] =>
           let x := fresh "x" in
           let Hx := fresh "Hx" in
           destruct (series_at_in_range (ewm_mean a xs) i) as (x & Hx);
           [rewrite ewm_mean_length, length_map; lia|];
           rewrite Hx; clear Hx
         end.
  cbn [rbind].
  repeat break_match; auto.
Qed.

(** X6: the crossover signal returns no signal on an index below one,
    without reading any row; on a row of the frame it returns no signal, or
    a long entry whose stop is the low of the bar and whose target is
    close + 2 * (close - low), or a short entry whose stop is the high and
    whose target is close - 2 * (high - close); past the end of the frame it
    raises the IndexError of the row read. *)
Theorem EMA_generate_signal_result :
  forall (s : TechnicalAnalysis) (index : Z),
    (index < 1 -> EMA_CrossoverStrategy_generate_signal s index = Ok NoSignal)
    /\ (forall row : Bar,
          iloc (data s) index = Ok row ->
          EMA_CrossoverStrategy_generate_signal s index = Ok NoSignal
          \/ EMA_CrossoverStrategy_generate_signal s index
             = Ok (long_entry row)
          \/ EMA_CrossoverStrategy_generate_signal s index
             = Ok (short_entry row))
    /\ (forall e : exn,
          1 <= index ->
          iloc (data s) index = Raise e ->
          EMA_CrossoverStrategy_generate_signal s index = Raise e).
Proof.
  intros s index; split; [|split].
  - intros Hindex; unfold EMA_CrossoverStrategy_generate_signal.
    apply Z.ltb_lt in Hindex; now rewrite Hindex.
  - apply generate_signal_on_row.
  - intros e Hindex Hrow; unfold EMA_CrossoverStrategy_generate_signal.
    apply Z.ltb_ge in Hindex; now rewrite Hindex, Hrow.
Qed.

Lemma EMA_generate_signal_result_witness :
  EMA_CrossoverStrategy_generate_signal sample_strategy 0 = Ok NoSignal
  /\ EMA_CrossoverStrategy_generate_signal sample_strategy 202
     = Ok (long_entry (mkBar 202 395 405 380 400 0))
  /\ EMA_CrossoverStrategy_generate_signal sample_strategy 204
     = Raise IndexError.
Proof.
  destruct (EMA_generate_signal_result sample_strategy 0) as (Hlow & _).
  destruct (EMA_generate_signal_result sample_strategy 202)
    as (_ & Hrow & _).
  destruct (EMA_generate_signal_result sample_strategy 204)
    as (_ & _ & Hpast).
  split; [apply Hlow; lia | split].
  - destruct (Hrow (mkBar 202 395 405 380 400 0) eq_refl) as [H|[H|H]].
    + vm_compute in H; discriminate.
    + exact H.
    + vm_compute in H; discriminate.
  - apply Hpast; [lia | reflexivity].
Defined.

(** X7: the crossover signal has no look-ahead: its answer on a bar of the
    frame stays the same when later bars are appended to the frame. *)
Theorem EMA_generate_signal_no_lookahead :
  forall (s s' : TechnicalAnalysis) (later : DataFrame) (index : Z),
    data s' = data s ++ later ->
    commission_rate s' = commission_rate s ->
    index < Z.of_nat (List.length (data s)) ->
    EMA_CrossoverStrategy_generate_signal s' index
    = EMA_CrossoverStrategy_generate_signal s index.
Proof.
  intros s s' later index Hdata Hrate Hhi.
  unfold EMA_CrossoverStrategy_generate_signal.
  destruct (index <? 1) eqn:Hindex; [reflexivity|].
  apply Z.ltb_ge in Hindex.
  destruct (iloc_in_range (data s) index ltac:(lia)) as (current & Hcur).
  destruct (iloc_in_range (data s) (index - 1) ltac:(lia))
    as (previous & Hprev).
  assert (Hcur' : iloc (data s') index = Ok current)
    by (rewrite Hdata; apply iloc_app; [lia | assumption]).
  assert (Hprev' : iloc (data s') (index - 1) = Ok previous)
    by (rewrite Hdata; apply iloc_app; [lia | assumption]).
  rewrite Hcur', Hprev', Hcur, Hprev, Hrate; cbn [rbind].
  destruct (calculate_ema_close 25 ltac:(lia)) as (a25 & H25).
  destruct (calculate_ema_close 50 ltac:(lia)) as (a50 & H50).
  destruct (calculate_ema_close 200 ltac:(lia)) as (a200 & H200).
  rewrite !H25, !H50, !H200, Hdata, map_app; cbn [rbind].
  destruct (ewm_mean_app a25 (map bar_close (data s)) (map bar_close later))
    as (r25 & ->).
  destruct (ewm_mean_app a50 (map bar_close (data s)) (map bar_close later))
    as (r50 & ->).
  destruct (ewm_mean_app a200 (map bar_close (data s)) (map bar_close later))
    as (r200 & ->).
  rewrite !series_at_app by (rewrite ewm_mean_length, length_map; lia).
  reflexivity.
Qed.

Lemma EMA_generate_signal_no_lookahead_witness :
  EMA_CrossoverStrategy_generate_signal sample_strategy_extended 202
  = EMA_CrossoverStrategy_generate_signal sample_strategy 202.
Proof.
  apply (EMA_generate_signal_no_lookahead
           sample_strategy sample_strategy_extended
           [mkBar 204 1250 1260 1240 1255 0] 202).
  - reflexivity.
  - reflexivity.
  - vm_compute; reflexivity.
Defined.

(** ** Positions *)

(** X8: check_exit_conditions never changes the object; without a position
    it answers no exit on any index, even one outside the frame; an exit it
    reports is at a level of the position, never at a price of the bar: the
    stop with reason SL when the stop is reached, the target with reason TP
    when the target is reached and the stop is not; with a position, an index
    outside the frame raises the IndexError of the row read. *)
Theorem check_exit_conditions_result :
  forall (w : World) (index : Z),
    self (snd (check_exit_conditions index w)) = self w
    /\ (current_position (self w) = None ->
        fst (check_exit_conditions index w) = Ok NoExit)
    /\ (forall (price : num) (reason : string),
          fst (check_exit_conditions index w) = Ok (Exit price reason) ->
          exists (pos : Position) (row : Bar),
            current_position (self w) = Some pos
            /\ iloc (data (self w)) index = Ok row
            /\ ((reason = "SL" /\ price = pos_stop_loss pos
                 /\ stop_reached pos row = true)
                \/ (reason = "TP" /\ price = pos_take_profit pos
                    /\ stop_reached pos row = false
                    /\ target_reached pos row = true)))
    /\ (forall (pos : Position) (e : exn),
          current_position (self w) = Some pos ->
          iloc (data (self w)) index = Raise e ->
          fst (check_exit_conditions index w) = Raise e).
Proof.
  intros w index.
  unfold check_exit_conditions, stop_reached, target_reached; unfold_monad.
  destruct (current_position (self w)) as [pos|]; mred;
    [|repeat split; try discriminate; auto].
  destruct (iloc (data (self w)) index) as [row|e0]; mred;
    [|repeat split; try discriminate; congruence].
  destruct (String.eqb (pos_direction pos) "long") eqn:Hdir;
    repeat break_match; mred;
    (split; [reflexivity|]); (split; [discriminate|]);
    (split; [|discriminate]);
    intros price reason Hexit; try discriminate;
    injection Hexit as <- <-; exists pos, row;
    (split; [reflexivity|]); (split; [reflexivity|]);
    rewrite ?Hdir;
    first [ left; repeat split; assumption
          | right; repeat split; assumption ].
Qed.

Lemma check_exit_conditions_result_witness :
  fst (check_exit_conditions 9 (holding None)) = Ok NoExit
  /\ fst (check_exit_conditions 9 (holding (Some long_position)))
     = Raise IndexError
  /\ exists (pos : Position) (row : Bar),
       current_position (self (holding (Some long_position))) = Some pos
       /\ iloc (data (self (holding (Some long_position)))) 2 = Ok row
       /\ (("SL" = "SL" /\ Np 380 = pos_stop_loss pos
            /\ stop_reached pos row = true)
           \/ ("SL" = "TP" /\ Np 380 = pos_take_profit pos
               /\ stop_reached pos row = false
               /\ target_reached pos row = true)).
Proof.
  destruct (check_exit_conditions_result (holding None) 9)
    as (_ & Hflat & _).
  destruct (check_exit_conditions_result (holding (Some long_position)) 9)
    as (_ & _ & _ & Hbad).
  destruct (check_exit_conditions_result (holding (Some long_position)) 2)
    as (_ & _ & Hexit & _).
  split; [apply Hflat; reflexivity | split].
  - apply (Hbad long_position IndexError); reflexivity.
  - apply (Hexit (Np 380) "SL"); reflexivity.
Defined.

(** X9: open_position has no guard: on a row of the frame it returns
    normally and replaces whatever position is held by the new one, with
    the time stamp of that row, recording no trade and leaving the capital
    as it was; on an index outside the frame it raises the IndexError of the
    row read and leaves the object unchanged. *)
Theorem open_position_result :
  forall (w : World) (index : Z) (dir : string) (entry sl tp : num),
    (forall row : Bar,
        iloc (data (self w)) index = Ok row ->
        fst (open_position index dir entry sl tp w) = Ok tt
        /\ self (snd (open_position index dir entry sl tp w))
           = set_current_position
               (Some (mkPosition index dir entry sl tp (bar_datetime row)))
               (self w))
    /\ (forall e : exn,
          iloc (data (self w)) index = Raise e ->
          fst (open_position index dir entry sl tp w) = Raise e
          /\ self (snd (open_position index dir entry sl tp w)) = self w).
Proof.
  intros w index dir entry sl tp; unfold open_position; unfold_monad.
  split; intros x Hrow; rewrite Hrow; mred; auto.
Qed.

Lemma open_position_result_witness :
  current_position
    (self (snd (open_position 2 "short" (Np 410) (Np 420) (Np 390)
                  (holding (Some long_position)))))
  = Some (mkPosition 2 "short" (Np 410) (Np 420) (Np 390) 2)
  /\ trades
       (self (snd (open_position 2 "short" (Np 410) (Np 420) (Np 390)
                     (holding (Some long_position))))) = []
  /\ open_position 9 "short" (Np 410) (Np 420) (Np 390)
       (holding (Some long_position))
     = (Raise IndexError,
        mkWorld (self (holding (Some long_position)))
                [mkEvent (call_open_position 9 "short" (Np 410) (Np 420)
                                             (Np 390))
                         (Some long_position)]).
Proof.
  destruct (open_position_result (holding (Some long_position)) 2 "short"
              (Np 410) (Np 420) (Np 390)) as [Hok _].
  destruct (Hok (mkBar 2 400 450 350 410 0) eq_refl) as [_ Hself].
  destruct (open_position_result (holding (Some long_position)) 9 "short"
              (Np 410) (Np 420) (Np 390)) as [_ Hbad].
  destruct (Hbad IndexError eq_refl) as [Hraise Hkeep].
  rewrite Hself; repeat split.
Defined.

(** X10: close_position is all or nothing: when it raises, the exception is
    a ZeroDivisionError (entry price zero, in built-in floats) or the
    IndexError of the exit row, a position was held, and the object is
    unchanged: no trade, no change of capital, the position still held. *)
Theorem close_position_raises_unchanged :
  forall (w : World) (index : Z) (price : num) (reason : string) (e : exn),
    fst (close_position index price reason w) = Raise e ->
    self (snd (close_position index price reason w)) = self w
    /\ current_position (self w) <> None
    /\ (e = ZeroDivisionError \/ iloc (data (self w)) index = Raise e).
Proof.
  intros w index price reason e.
  unfold close_position; unfold_monad.
  destruct (current_position (self w)) as [pos|]; mred; [|discriminate].
  destruct (num_div _ (pos_entry_price pos)) as [q|e0] eqn:Hq; mred.
  - destruct (iloc (data (self w)) index) as [row|e0]; mred.
    + rewrite num_div_100; mred; discriminate.
    + intros [= <-]; repeat split; auto; discriminate.
  - unfold num_div in Hq; destruct (div_raises _ _); [|discriminate].
    injection Hq as <-.
    intros [= <-]; repeat split; auto; discriminate.
Qed.

Lemma close_position_raises_unchanged_witness :
  fst (close_position 9 (Np 440) "TP" (holding (Some long_position)))
  = Raise IndexError
  /\ self (snd (close_position 9 (Np 440) "TP"
                  (holding (Some long_position))))
     = self (holding (Some long_position)).
Proof.
  assert (H : fst (close_position 9 (Np 440) "TP"
                     (holding (Some long_position))) = Raise IndexError)
    by reflexivity.
  split; [exact H|].
  exact (proj1 (close_position_raises_unchanged
                  (holding (Some long_position)) 9 (Np 440) "TP"
                  IndexError H)).
Defined.



(** ** Runs *)

Lemma engine_steps_trades (s s' : TechnicalAnalysis) :
  engine_steps s s' -> exists new : list Trade, trades s' = trades s ++ new.
Proof.
  induction 1 as [|s1 s2 _ (new & IH) Hstep].
  - exists []; now rewrite app_nil_r.
  - destruct (engine_step_capital _ _ Hstep) as [[Ht _]|(t & Ht & _)];
      rewrite Ht, IH; [eauto|].
    exists (new ++ [t]); now rewrite app_assoc.
Qed.

(** X12: a run, however it ends and whatever the signal method, leaves the
    data frame, the initial capital and the commission rate as they were,
    and only appends to the list of trades: the trades recorded before the
    run are still there, unchanged and in order. *)
Theorem run_backtest_appends_trades :
  forall (generate_signal : TechnicalAnalysis -> Z -> result Signal)
         (w : World),
    data (self (snd (run_backtest generate_signal w))) = data (self w)
    /\ initial_capital (self (snd (run_backtest generate_signal w)))
       = initial_capital (self w)
    /\ commission_rate (self (snd (run_backtest generate_signal w)))
       = commission_rate (self w)
    /\ exists new : list Trade,
         trades (self (snd (run_backtest generate_signal w)))
         = trades (self w) ++ new.
Proof.
  intros gs w.
  pose proof (run_backtest_steps gs w) as Hsteps.
  destruct (engine_steps_frame _ _ Hsteps) as (Hd & Hi & Hc).
  repeat split; auto using engine_steps_trades.
Qed.

Lemma close_position_leaves_flat (w : World) (index : Z) (price : num)
    (reason : string) :
  fst (close_position index price reason w) = Ok tt ->
  current_position (self (snd (close_position index price reason w))) = None.
Proof.
  unfold close_position; unfold_monad.
  repeat (first [rewrite num_div_100 | break_match]; mred);
    try discriminate; auto.
Qed.

(** X13: a run that returns normally ends flat: no position is held when
    run_backtest returns, whatever the signal method and the state the run
    started in. *)
Theorem run_backtest_ends_flat :
  forall (generate_signal : TechnicalAnalysis -> Z -> result Signal)
         (w : World),
    fst (run_backtest generate_signal w) = Ok tt ->
    current_position (self (snd (run_backtest generate_signal w))) = None.
Proof.
  intros gs w; unfold run_backtest; unfold_monad.
  destruct (iloc (data (self w)) 0); mred; [|discriminate].
  destruct (iloc (data (self w)) (-1)); mred; [|discriminate].
  destruct (for_each _ _ w) as [[[]|e] w1]; mred; [|discriminate].
  destruct (current_position (self w1)) as [pos|] eqn:Hpos; mred; [|auto].
  destruct (iloc (data (self w1)) _) as [row|e]; mred; [|discriminate].
  apply close_position_leaves_flat.
Qed.

Lemma run_backtest_ends_flat_witness :
  fst (run_backtest EMA_CrossoverStrategy_generate_signal sample_holding)
  = Ok tt
  /\ current_position
       (self (snd (run_backtest EMA_CrossoverStrategy_generate_signal
                                sample_holding))) = None.
Proof.
  assert (H : fst (run_backtest EMA_CrossoverStrategy_generate_signal
                                sample_holding) = Ok tt)
    by (vm_compute; reflexivity).
  split; [exact H|].
  exact (run_backtest_ends_flat EMA_CrossoverStrategy_generate_signal
                                sample_holding H).
Defined.

Lemma num_div_np (x : num) (f : float) :
  num_div x (Np f) = Ok (num_quot x (Np f)).
Proof. apply num_div_total; destruct x; reflexivity. Qed.

Section RunReturns.

Variable generate_signal : TechnicalAnalysis -> Z -> result Signal.
Hypothesis Hsignal : signal_returns generate_signal.

Lemma loop_body_returns (i : Z) (w : World) (row : Bar) :
  iloc (data (self w)) i = Ok row ->
  priced_from_data (self w) ->
  exists w' : World,
    loop_body generate_signal i w = (Ok tt, w')
    /\ priced_from_data (self w')
    /\ data (self w') = data (self w).
Proof.
  intros Hrow Hpriced.
  unfold loop_body.
  destruct (i <? 200) eqn:Hwarm; [exists w; auto|].
  apply Z.ltb_ge in Hwarm.
  destruct (Hsignal (self w) i row Hwarm Hrow) as (sig & Hsig).
  unfold exit_step, entry_step, check_exit_conditions, close_position,
    open_position, self_generate_signal.
  unfold_monad.
  destruct (current_position (self w)) as [pos|] eqn:Hpos; mred.
  - destruct (Hpriced pos Hpos) as (f & Hf).
    repeat (first [ rewrite Hf | rewrite num_div_100 | rewrite num_div_np
                  | break_match ];
            mred);
      eexists; (split; [reflexivity|]); mred;
      (split; [|reflexivity]);
      first [ assumption | intros p Hp; discriminate Hp ].
  - repeat (break_match; mred);
      eexists; (split; [reflexivity|]); mred;
      (split; [|reflexivity]);
      first [ assumption
            | intros p Hp; injection Hp as <-; cbn; eauto ].
Qed.

Lemma for_each_returns (l : list Z) (w : World) :
  (forall i : Z, In i l -> exists row, iloc (data (self w)) i = Ok row) ->
  priced_from_data (self w) ->
  exists w' : World,
    for_each l (loop_body generate_signal) w = (Ok tt, w')
    /\ priced_from_data (self w')
    /\ data (self w') = data (self w).
Proof.
  revert w; induction l as [|i l IH]; intros w Hrows Hpriced.
  - exists w; auto.
  - destruct (Hrows i (or_introl eq_refl)) as (row & Hrow).
    destruct (loop_body_returns i w row Hrow Hpriced)
      as (w1 & Hbody & Hpriced1 & Hdata1).
    destruct (IH w1) as (w2 & Hrest & Hpriced2 & Hdata2); auto.
    { intros k Hk; rewrite Hdata1; apply Hrows; now right. }
    exists w2; cbn [for_each]; unfold bind; rewrite Hbody, Hrest.
    repeat split; auto; congruence.
Qed.

Lemma run_backtest_returns_from (w : World) :
  data (self w) <> [] ->
  priced_from_data (self w) ->
  fst (run_backtest generate_signal w) = Ok tt.
Proof.
  intros Hne Hpriced.
  destruct (iloc_first _ Hne) as (r0 & H0).
  destruct (iloc_last _ Hne) as (r1 & H1).
  unfold run_backtest; unfold_monad.
  rewrite H0; mred; rewrite H1; mred.
  destruct (for_each_returns (range (List.length (data (self w)))) w)
    as (w1 & -> & Hpriced1 & Hdata1); auto.
  { intros i Hi; apply iloc_in_range.
    pose proof (range_below (List.length (data (self w)))) as Hbelow.
    rewrite Forall_forall in Hbelow; specialize (Hbelow i Hi).
    unfold range in Hi; apply in_map_iff in Hi as (k & <- & _); lia. }
  mred.
  destruct (current_position (self w1)) as [pos|] eqn:Hpos; mred; auto.
  destruct (Hpriced1 pos Hpos) as (f & Hf).
  assert (Hlen : (0 < List.length (data (self w)))%nat)
    by (destruct (data (self w)); [easy | cbn; lia]).
  destruct (iloc_in_range (data (self w1))
              (Z.of_nat (List.length (data (self w1))) - 1))
    as (row & Hrow); [rewrite Hdata1; lia|].
  rewrite Hrow; mred.
  now apply close_position_returns with pos row f.
Qed.

End RunReturns.


Lemma EMA_signal_returns : signal_returns EMA_CrossoverStrategy_generate_signal.
Proof.
  intros s i row _ Hrow.
  destruct (generate_signal_on_row s i row Hrow) as [H|[H|H]]; eauto.
Qed.

Lemma priced_from_data_flat (s : TechnicalAnalysis) :
  current_position s = None -> priced_from_data s.
Proof. intros Hflat pos Hpos; congruence. Qed.




Section RunExits.

Variable generate_signal : TechnicalAnalysis -> Z -> result Signal.
Variable df : DataFrame.

Lemma loop_body_exits (i : Z) (w : World) :
  Forall (exit_of_run df) (trades (self w)) ->
  Forall (exit_of_run df) (trades (self (snd (loop_body generate_signal i w)))).
Proof.
  intros Hall.
  unfold loop_body, exit_step, entry_step, check_exit_conditions,
    close_position, open_position, self_generate_signal.
  unfold_monad.
  repeat (first [rewrite num_div_100 | break_match]; mred);
    try assumption;
    (apply Forall_app; split; [assumption|]);
    (constructor; [|constructor]);
    unfold exit_of_run;
    first [ left; split; reflexivity | right; left; split; reflexivity ].
Qed.

Lemma for_each_exits (l : list Z) (w : World) :
  Forall (exit_of_run df) (trades (self w)) ->
  Forall (exit_of_run df)
         (trades (self (snd (for_each l (loop_body generate_signal) w)))).
Proof.
  revert w; induction l as [|i l IH]; intros w Hall; [assumption|].
  cbn [for_each]; unfold bind at 1.
  pose proof (loop_body_exits i w Hall) as Hbody.
  destruct (loop_body generate_signal i w) as [[[]|e] w1]; cbn [snd] in *;
    auto.
Qed.

Lemma run_backtest_exits (w : World) :
  data (self w) = df ->
  Forall (exit_of_run df) (trades (self w)) ->
  Forall (exit_of_run df)
         (trades (self (snd (run_backtest generate_signal w)))).
Proof.
  intros Hdata Hall.
  unfold run_backtest; unfold_monad.
  destruct (iloc (data (self w)) 0); mred; [|assumption].
  destruct (iloc (data (self w)) (-1)); mred; [|assumption].
  pose proof (for_each_exits (range (List.length (data (self w)))) w Hall)
    as Hloop.
  pose proof (for_each_steps generate_signal
                (range (List.length (data (self w)))) w) as Hsteps.
  destruct (for_each _ _ w) as [[[]|e] w1]; cbn [snd] in *; mred; auto.
  destruct (engine_steps_frame _ _ Hsteps) as (Hdata1 & _).
  destruct (current_position (self w1)) as [pos|] eqn:Hpos; mred; auto.
  destruct (iloc (data (self w1)) _) as [row|e] eqn:Hrow; mred; auto.
  unfold close_position; unfold_monad; rewrite Hpos; mred.
  repeat (first [rewrite num_div_100 | break_match]; mred);
    try assumption;
    (apply Forall_app; split; [assumption|]);
    (constructor; [|constructor]);
    unfold exit_of_run; right; right; (split; [reflexivity|]);
    exists row; rewrite <- Hdata, <- Hdata1; auto.
Qed.

End RunExits.

(** X16: the trades of a run on a constructed object are closed in three
    ways only: at the stop of the position with reason SL, at its target
    with reason TP, or at the close of the last bar of the frame, with its
    time stamp and reason End.  A run never closes at any other price, and
    never with the reason Signal that the Trade record documents. *)
Theorem run_backtest_exit_reasons :
  forall (generate_signal : TechnicalAnalysis -> Z -> result Signal)
         (df : DataFrame) (ic cr : num) (s : TechnicalAnalysis) (t : Trade),
    __init__ df ic cr = Ok s ->
    In t (trades (self (snd (run_backtest generate_signal (mkWorld s []))))) ->
    exit_of_run df t.
Proof.
  intros gs df ic cr s t Hinit Hin.
  apply init_fresh in Hinit; subst s.
  pose proof (run_backtest_exits gs df
                (mkWorld (mkTA df ic ic cr [] None) []) eq_refl
                (Forall_nil _)) as Hall.
  rewrite Forall_forall in Hall; auto.
Qed.

Lemma run_backtest_exit_reasons_witness :
  Forall (exit_of_run sample_frame) (trades sample_result)
  /\ List.length (trades sample_result) = 1%nat.
Proof.
  split; [|vm_compute; reflexivity].
  apply Forall_forall; intros t Ht.
  exact (run_backtest_exit_reasons EMA_CrossoverStrategy_generate_signal
           sample_frame (Py 100) (Py 0.0009765625) sample_strategy t
           eq_refl Ht).
Defined.

Lemma for_each_app (body : Z -> M unit) (l1 l2 : list Z) (w : World) :
  for_each (l1 ++ l2) body w
  = match for_each l1 body w with
    | (Ok _, w1) => for_each l2 body w1
    | (Raise e, w1) => (Raise e, w1)
    end.
Proof.
  revert w; induction l1 as [|i l1 IH]; intros w; [reflexivity|].
  cbn [app for_each]; unfold bind.
  destruct (body i w) as [[[]|e] w1]; [apply IH | reflexivity].
Qed.

(** X17: a missing strategy is reported by the run, not by the constructor,
    and only at the first bar past the warm-up: on a constructed object of
    the base class with more than 200 bars, run_backtest skips the first 200
    bars, calls generate_signal once, on bar 200, and raises its
    NotImplementedError; the object is left as constructed. *)
Theorem run_backtest_base_class :
  forall (df : DataFrame) (ic cr : num),
    (200 < List.length df)%nat ->
    __init__ df ic cr = Ok (mkTA df ic ic cr [] None)
    /\ run_backtest base_generate_signal
         (mkWorld (mkTA df ic ic cr [] None) [])
       = (Raise NotImplementedError,
          mkWorld (mkTA df ic ic cr [] None)
                  [mkEvent (call_generate_signal 200) None]).
Proof.
  intros df ic cr Hlen; split; [reflexivity|].
  assert (Hne : df <> []) by (destruct df; [cbn in Hlen; lia | discriminate]).
  destruct (iloc_first df Hne) as (r0 & H0).
  destruct (iloc_last df Hne) as (r1 & H1).
  unfold run_backtest; unfold_monad.
  rewrite H0; mred; rewrite H1; mred.
  unfold range.
  replace (List.length df) with (200 + S (List.length df - 201))%nat by lia.
  rewrite seq_app, map_app, for_each_app.
  rewrite for_each_warmup
    by (eapply Forall_impl; [|apply range_below]; cbn; intros; lia).
  cbn [Nat.add seq map for_each].
  unfold bind at 1, loop_body at 1.
  change (Z.of_nat 200 <? 200) with false; cbn iota.
  unfold exit_step, entry_step, self_generate_signal, base_generate_signal.
  unfold_monad; reflexivity.
Qed.

Lemma run_backtest_base_class_witness :
  fst (run_backtest base_generate_signal (mkWorld sample_strategy []))
  = Raise NotImplementedError
  /\ self (snd (run_backtest base_generate_signal
                             (mkWorld sample_strategy [])))
     = sample_strategy.
Proof.
  destruct (run_backtest_base_class sample_frame (Py 100)
              (Py 0.0009765625)) as [_ Hrun].
  - vm_compute; lia.
  - unfold sample_strategy; rewrite Hrun; split; reflexivity.
Defined.

(** ** Statistics, further *)

(** A number that is not NaN is above zero or at most zero. *)
Lemma float_sign_total (x : float) :
  is_nan x = false ->
  PrimFloat.ltb 0 x = true \/ PrimFloat.leb x 0 = true.
Proof.
  unfold is_nan; intros Hx; apply negb_false_iff in Hx.
  rewrite FloatAxioms.eqb_spec in Hx.
  rewrite FloatAxioms.ltb_spec, FloatAxioms.leb_spec.
  change (Prim2SF 0) with (S754_zero false).
  destruct (Prim2SF x) as [sign|sign| |sign m e]; cbn in *;
    try discriminate; try destruct sign; auto.
Qed.

(** What is above a non-negative number is non-negative. *)
Lemma float_above_nonneg (m d : float) :
  PrimFloat.leb 0 m = true ->
  PrimFloat.ltb m d = true ->
  PrimFloat.leb 0 d = true.
Proof.
  rewrite !FloatAxioms.leb_spec, FloatAxioms.ltb_spec.
  change (Prim2SF 0) with (S754_zero false).
  unfold SFleb, SFltb.
  destruct (Prim2SF m) as [sm|sm| |sm mm em],
           (Prim2SF d) as [sd|sd| |sd md ed];
    try destruct sm; try destruct sd; cbn; congruence.
Qed.

Lemma winners_losers_length (ts : list Trade) :
  (List.length (winners ts) + List.length (losers ts) <= List.length ts)%nat
  /\ (Forall (fun t => is_nan (val (profit_loss t)) = false) ts ->
      (List.length (winners ts) + List.length (losers ts))%nat
      = List.length ts).
Proof.
  unfold winners, losers; induction ts as [|t ts [IHle IHeq]];
    cbn [filter List.length]; [split; [lia | reflexivity]|].
  destruct (profit_loss t >? Py 0)%num eqn:Hwin.
  - assert (Hlose : (profit_loss t <=? Py 0)%num = false)
      by (apply ltb_not_leb; exact Hwin).
    rewrite Hlose; cbn [List.length]; split; [lia|].
    intros Hall; inversion Hall; subst; rewrite <- IHeq by assumption; lia.
  - destruct (profit_loss t <=? Py 0)%num eqn:Hlose;
      cbn [List.length]; split; try lia.
    + intros Hall; inversion Hall; subst; rewrite <- IHeq by assumption; lia.
    + intros Hall; inversion Hall as [|? ? Hnan _]; subst.
      unfold num_gtb, num_leb in *; cbn [val] in *.
      destruct (float_sign_total _ Hnan); congruence.
Qed.

(** The fields of the dictionary that calculate_statistics fills in without
    a division. *)
Lemma calculate_statistics_fields (s : TechnicalAnalysis) (st : Statistics) :
  calculate_statistics s = Ok st ->
  total_trades st = List.length (trades s)
  /\ winning_trades st = List.length (winners (trades s))
  /\ losing_trades st = List.length (losers (trades s))
  /\ total_commission_paid st = py_sum (map commission_paid (trades s))
     \/ trades s = [].
Proof.
  unfold calculate_statistics; intros Hst.
  destruct (trades s) as [|t ts] eqn:Hts; [auto|left].
  unfold rbind in Hst.
  repeat match type of Hst with
         | match ?x with _ => _ end = _ => destruct x; try discriminate
         end;
    injection Hst as <-; auto.
Qed.



Lemma drawdown_loop_nonneg (values : list num) (peak md r : num) :
  drawdown_loop values peak md = Ok r ->
  PrimFloat.leb 0 (val md) = true ->
  PrimFloat.leb 0 (val r) = true.
Proof.
  revert peak md; induction values as [|value values IH]; intros peak md;
    cbn [drawdown_loop].
  - now intros [= <-].
  - destruct (num_div _ _) as [q|e]; cbn [rbind]; [|discriminate].
    intros Hloop Hmd; apply (IH _ _ Hloop).
    destruct (q * Py 100 >? md)%num eqn:Hup; [|assumption].
    unfold num_gtb in Hup; now apply float_above_nonneg with (val md).
Qed.

Lemma calculate_statistics_drawdown (s : TechnicalAnalysis)
    (st : Statistics) :
  calculate_statistics s = Ok st ->
  max_drawdown st = Py 0
  \/ exists curve : list num,
       drawdown_loop curve (hd (Py 0) curve) (Py 0) = Ok (max_drawdown st).
Proof.
  unfold calculate_statistics; intros Hst.
  destruct (trades s) as [|t ts] eqn:Hts;
    [injection Hst as <-; auto|right].
  destruct (capital_curve_loop _ _) as [curve|e]; cbn [rbind] in Hst;
    [|discriminate].
  exists curve.
  destruct (drawdown_loop curve _ _) as [md|e]; cbn [rbind] in Hst;
    [|discriminate].
  unfold rbind in Hst.
  repeat match type of Hst with
         | match ?x with _ => _ end = _ => destruct x; try discriminate
         end;
    injection Hst as <-; reflexivity.
Qed.

(** X19: the maximum drawdown reported by calculate_statistics is never
    negative and never NaN, whatever the trades and the capital: it starts
    at zero and is only ever replaced by a larger value. *)
Theorem calculate_statistics_drawdown_nonneg :
  forall (s : TechnicalAnalysis) (st : Statistics),
    calculate_statistics s = Ok st ->
    (Py 0 <=? max_drawdown st)%num = true.
Proof.
  intros s st Hst; unfold num_leb; cbn [val].
  destruct (calculate_statistics_drawdown s st Hst) as [-> | (curve & Hloop)];
    [reflexivity|].
  now apply (drawdown_loop_nonneg _ _ _ _ Hloop).
Qed.

Lemma calculate_statistics_drawdown_nonneg_witness :
  exists st : Statistics,
    calculate_statistics sample_result = Ok st
    /\ (Py 0 <=? max_drawdown st)%num = true.
Proof.
  destruct (calculate_statistics sample_result) as [st|e] eqn:Hst;
    [|vm_compute in Hst; discriminate].
  exists st; split; [reflexivity|].
  exact (calculate_statistics_drawdown_nonneg sample_result st Hst).
Defined.

Lemma capital_curve_loop_head (ts : list Trade) (c : num) (cs : list num) :
  exists rest : list num,
    capital_curve_loop (c :: cs) ts = Ok (c :: rest).
Proof.
  revert cs; induction ts as [|t ts IH]; intros cs; cbn [capital_curve_loop];
    [eauto|].
  rewrite num_div_100; cbn [rbind app].
  apply IH.
Qed.

(** X20: with an initial capital of zero held as a built-in float, the
    statistics of an object that has recorded a trade cannot be computed:
    calculate_statistics raises ZeroDivisionError, on the first point of the
    capital curve. *)
Theorem calculate_statistics_zero_capital :
  forall (s : TechnicalAnalysis) (f : float),
    initial_capital s = Py f ->
    PrimFloat.eqb f 0 = true ->
    trades s <> [] ->
    calculate_statistics s = Raise ZeroDivisionError.
Proof.
  intros s f Hcap Hzero Hsome; unfold calculate_statistics.
  destruct (trades s) as [|t ts]; [easy|].
  destruct (capital_curve_loop_head (t :: ts) (initial_capital s) [])
    as (rest & ->).
  cbn [rbind hd drawdown_loop]; rewrite Hcap.
  assert (Hraise : forall x : float, num_div (Py f - Py x)%num (Py f)
                                     = Raise ZeroDivisionError).
  { intros x; unfold num_div; cbn; now rewrite Hzero. }
  destruct (Py f >? Py f)%num; rewrite Hraise; reflexivity.
Qed.

Lemma calculate_statistics_zero_capital_witness :
  calculate_statistics
    (self (snd (run_backtest EMA_CrossoverStrategy_generate_signal
                  (mkWorld (mkTA sample_frame (Py 0) (Py 0)
                                 (Py 0.0009765625) [] None) []))))
  = Raise ZeroDivisionError.
Proof.
  apply (calculate_statistics_zero_capital _ 0).
  - vm_compute; reflexivity.
  - reflexivity.
  - vm_compute; discriminate.
Defined.

(** ** Where the entries of a run come from *)

Section RunEntries.

Variable generate_signal : TechnicalAnalysis -> Z -> result Signal.

Lemma loop_body_entries (i : Z) (w : World) :
  entries_from_signal generate_signal (self w) ->
  entries_from_signal generate_signal
    (self (snd (loop_body generate_signal i w))).
Proof.
  intros [Hpos Htr].
  unfold loop_body, exit_step, entry_step, check_exit_conditions,
    close_position, open_position, self_generate_signal.
  unfold_monad.
  repeat (first [rewrite num_div_100 | break_match]; mred);
    try congruence;
    split; mred.
  all: try assumption.
  all: try (apply Forall_app; split; [assumption|];
            constructor; [|constructor];
            apply Hpos; congruence).
  all: intros pos' Hp; try discriminate Hp.
  all: try (apply Hpos; congruence).
  all: injection Hp as <-.
  all: match goal with
       | H : iloc (data (self ?w0)) ?i0 = Ok ?row |- _ =>
         exists (self w0), i0, row
       end;
       cbn; repeat split; auto; apply Z.ltb_ge; assumption.
Qed.

Lemma close_position_entries (index : Z) (price : num) (reason : string)
    (w : World) :
  entries_from_signal generate_signal (self w) ->
  entries_from_signal generate_signal
    (self (snd (close_position index price reason w))).
Proof.
  intros [Hpos Htr].
  unfold close_position; unfold_monad.
  repeat (first [rewrite num_div_100 | break_match]; mred);
    split; mred.
  all: try assumption.
  all: try (apply Forall_app; split; [assumption|];
            constructor; [|constructor];
            apply Hpos; congruence).
  all: intros pos' Hp; try discriminate Hp.
  all: apply Hpos; congruence.
Qed.

Lemma for_each_entries (l : list Z) (w : World) :
  entries_from_signal generate_signal (self w) ->
  entries_from_signal generate_signal
    (self (snd (for_each l (loop_body generate_signal) w))).
Proof.
  revert w; induction l as [|i l IH]; intros w Hall; [assumption|].
  cbn [for_each]; unfold bind at 1.
  pose proof (loop_body_entries i w Hall) as Hbody.
  destruct (loop_body generate_signal i w) as [[[]|e] w1]; cbn [snd] in *;
    auto.
Qed.

Lemma run_backtest_entries (w : World) :
  entries_from_signal generate_signal (self w) ->
  entries_from_signal generate_signal
    (self (snd (run_backtest generate_signal w))).
Proof.
  intros Hall; unfold run_backtest; unfold_monad.
  destruct (iloc (data (self w)) 0); mred; [|assumption].
  destruct (iloc (data (self w)) (-1)); mred; [|assumption].
  pose proof (for_each_entries (range (List.length (data (self w)))) w Hall)
    as Hloop.
  destruct (for_each _ _ w) as [[[]|e] w1]; cbn [snd] in *; mred; auto.
  destruct (current_position (self w1)); mred; auto.
  destruct (iloc (data (self w1)) _) as [row|e]; mred; auto.
  now apply close_position_entries.
Qed.

End RunEntries.

(** X21: every trade of a run on a constructed object comes from the signal
    method: there is a bar past the warm-up on which, with no position held
    and the same frame and commission rate, generate_signal returned the
    direction, the stop and the target recorded in the trade; the entry price
    of the trade is the close of that bar and its entry time the time stamp
    of that bar. *)
Theorem run_backtest_trades_from_signal :
  forall (generate_signal : TechnicalAnalysis -> Z -> result Signal)
         (df : DataFrame) (ic cr : num) (s : TechnicalAnalysis) (t : Trade),
    __init__ df ic cr = Ok s ->
    In t (trades (self (snd (run_backtest generate_signal (mkWorld s []))))) ->
    trade_from_signal generate_signal df cr t.
Proof.
  intros gs df ic cr s t Hinit Hin.
  apply init_fresh in Hinit; subst s.
  pose proof (run_backtest_steps gs (mkWorld (mkTA df ic ic cr [] None) []))
    as Hsteps.
  destruct (engine_steps_frame _ _ Hsteps) as (Hdata & _ & Hrate).
  destruct (run_backtest_entries gs (mkWorld (mkTA df ic ic cr [] None) []))
    as [_ Hall].
  { split; cbn; [discriminate | constructor]. }
  rewrite Hdata, Hrate in Hall; cbn [self data commission_rate] in Hall.
  rewrite Forall_forall in Hall; auto.
Qed.

Lemma run_backtest_trades_from_signal_witness :
  Forall (trade_from_signal EMA_CrossoverStrategy_generate_signal
                            sample_frame (Py 0.0009765625))
         (trades sample_result)
  /\ List.length (trades sample_result) = 1%nat.
Proof.
  split; [|vm_compute; reflexivity].
  apply Forall_forall; intros t Ht.
  exact (run_backtest_trades_from_signal
           EMA_CrossoverStrategy_generate_signal sample_frame (Py 100)
           (Py 0.0009765625) sample_strategy t eq_refl Ht).
Defined.
